(** * PR / GHI plotting pipeline (src/main.py)

    A shallow embedding of the data pipeline of [main.py]: the CSV loader
    [csvWalker], the date-keyed inner join of [preprocessing], the range
    selector [fetchCsvData], the budget curve [budgetValues] and the
    statistics computed inside [plotter].

    Modelling choices.
    - A pandas [Timestamp] is a calendar date (year, month, day),
      compared lexicographically.
    - Float columns (GHI, PR, Budget) are rationals [Q]; arithmetic is exact,
      IEEE rounding is not modelled.  NaN ("missing") is [None].
    - A DataFrame is the list of its rows in positional order.
    - [sort_values('Date')] is an insertion sort on the date key.
    - [pd.to_datetime(None)] is [None]: an absent bound stays absent.
    - Exceptions are the [Err] branch of [Result]. *)

From Stdlib Require Import List Bool Arith ZArith QArith Qround Lia Lqa.
From Stdlib Require Import String Ascii Qpower.
From Stdlib Require Import Sorting.Sorted Sorting.Permutation.
Import ListNotations.

Set Warnings "-register-all".
Local Open Scope Z_scope.

(* ================================================================= *)
(** * Part I: the program *)
(* ================================================================= *)

(** ** Dates *)

Record Timestamp : Type := mkDate { year : Z; month : Z; day : Z }.

(** A calendar date has its month in 1..12 and its day in 1..31. *)
Definition valid_date (d : Timestamp) : Prop :=
  1 <= month d <= 12 /\ 1 <= day d <= 31.

Definition date_compare (a b : Timestamp) : comparison :=
  match year a ?= year b with
  | Eq => match month a ?= month b with
          | Eq => day a ?= day b
          | c => c
          end
  | c => c
  end.

(** [a <= b] on timestamps. *)
Definition date_leb (a b : Timestamp) : bool :=
  match date_compare a b with Gt => false | _ => true end.

(** [a == b] on timestamps. *)
Definition date_eqb (a b : Timestamp) : bool :=
  match date_compare a b with Eq => true | _ => false end.

Definition date_le (a b : Timestamp) : Prop := date_leb a b = true.

(** ** Exceptions *)

Inductive Exn : Type :=
| EmptyDataError          (* pd.read_csv on a file it cannot read *)
| KeyError (col : string) (* tempDf['Date'] without such a column *)
| DateParseError (cell : string) (* pd.to_datetime on an unparseable cell *)
| NoObjectsToConcatenate  (* pd.concat([]) raises ValueError *)
| AttributeError.         (* None.year / None.date() *)

Inductive Result (A : Type) : Type :=
| Ok (a : A)
| Err (e : Exn).
Arguments Ok {A} a.
Arguments Err {A} e.

Definition bind {A B : Type} (r : Result A) (k : A -> Result B) : Result B :=
  match r with
  | Ok a => k a
  | Err e => Err e
  end.

Notation "x <- c ;; k" := (bind c (fun x => k))
  (at level 61, c at next level, right associativity).

Definition is_err {A : Type} (r : Result A) : bool :=
  match r with Ok _ => false | Err _ => true end.

(** ** DataFrame.sort_values *)

Section SortValues.
Context {A : Type}.
Variable key : A -> Timestamp.

Fixpoint insert_by (x : A) (l : list A) : list A :=
  match l with
  | [] => [x]
  | y :: t => if date_leb (key x) (key y) then x :: y :: t
              else y :: insert_by x t
  end.

(** Rows are ordered by ascending key.  Rows with equal keys keep their
    relative order here; pandas leaves that to the sort kind, and nothing
    below depends on it. *)
Definition sort_values (l : list A) : list A :=
  fold_right insert_by [] l.

(** Row [x] is dated no later than row [y]. *)
Definition key_le (x y : A) : Prop := date_le (key x) (key y).
End SortValues.

(** ** Record loader: [csvWalker] *)

(** What [pd.read_csv] hands back for a readable file: the header line and
    the data lines, cell by cell. *)
Record RawTable : Type := mkRaw {
  header : list string;
  body : list (list string)
}.

(** A file of a directory tree: its name and what [pd.read_csv] makes of it
    ([None]: the read raises, as on a zero-byte file). *)
Record File : Type := mkFile {
  fname : string;
  content : option RawTable
}.

(** A directory: its files and its sub-directories. *)
Inductive Dir : Type :=
| MkDir (files : list File) (subDir : list Dir).

(** [os.walk(dir)] visits the directory itself, then every sub-directory
    tree; the files are listed in the order of the visits. *)
Fixpoint os_walk (d : Dir) : list File :=
  match d with
  | MkDir files subDir => files ++ flat_map os_walk subDir
  end.

(** [str.endswith]. *)
Definition endswith (s suffix : string) : bool :=
  let n := String.length s in
  let m := String.length suffix in
  (m <=? n)%nat && String.eqb (substring (n - m) m s) suffix.

(** The test [file.endswith('.csv')] of the inner loop. *)
Definition is_csv (file : File) : bool := endswith (fname file) ".csv".

(** The same tree with every file that fails the test removed. *)
Fixpoint prune (d : Dir) : Dir :=
  match d with
  | MkDir files subDir => MkDir (filter is_csv files) (map prune subDir)
  end.

(** A loaded row: the parsed ['Date'] and the other cells under their
    column names. *)
Definition Cells : Type := list (string * string).
Definition LoadedRow : Type := (Timestamp * Cells)%type.
Definition Frame : Type := list LoadedRow.

Fixpoint column_index (col : string) (cols : list string) : option nat :=
  match cols with
  | [] => None
  | c :: rest => if String.eqb c col then Some O
                 else option_map S (column_index col rest)
  end.

Definition other_cells (cols : list string) (line : list string) : Cells :=
  filter (fun c => negb (String.eqb (fst c) "Date")) (combine cols line).

Section Loader.
(** [pd.to_datetime] on one cell; [None] when it raises. *)
Variable to_datetime : string -> option Timestamp.

Definition read_csv (file : File) : Result RawTable :=
  match content file with
  | Some t => Ok t
  | None => Err EmptyDataError
  end.

(** [tempDf['Date'] = pd.to_datetime(tempDf['Date'])], line by line. *)
Fixpoint convert_dates (cols : list string) (i : nat)
         (lines : list (list string)) : Result Frame :=
  match lines with
  | [] => Ok []
  | line :: rest =>
      let cell := nth i line EmptyString in
      match to_datetime cell with
      | None => Err (DateParseError cell)
      | Some d =>
          rows <- convert_dates cols i rest ;;
          Ok ((d, other_cells cols line) :: rows)
      end
  end.

Definition load_csv (file : File) : Result Frame :=
  tempDf <- read_csv file ;;
  match column_index "Date" (header tempDf) with
  | None => Err (KeyError "Date")
  | Some i => convert_dates (header tempDf) i (body tempDf)
  end.

(** The two nested [for] loops of [csvWalker] over the walk: [csvData]
    collects the frames, [seen] the files handed to [pd.read_csv]. *)
Fixpoint walk_loop (todo : list File) (csvData : list Frame)
         (seen : list File) : list File * Result (list Frame) :=
  match todo with
  | [] => (seen, Ok csvData)
  | file :: rest =>
      if is_csv file then
        match load_csv file with
        | Ok tempDf => walk_loop rest (csvData ++ [tempDf]) (seen ++ [file])
        | Err e => (seen ++ [file], Err e)
        end
      else walk_loop rest csvData seen
  end.

(** [pd.concat]: raises on an empty list of frames. *)
Definition pd_concat (frames : list Frame) : Result Frame :=
  match frames with
  | [] => Err NoObjectsToConcatenate
  | _ => Ok (List.concat frames)
  end.

(** The files read, and the frame returned or the exception raised. *)
Definition csvWalker_run (dir : Dir) : list File * Result Frame :=
  let (seen, r) := walk_loop (os_walk dir) [] [] in
  (seen, csvData <- r ;; pd_concat csvData).

Definition csvWalker (dir : Dir) : Result Frame :=
  snd (csvWalker_run dir).
End Loader.

(** *** When a file makes the loader raise *)

Definition unreadable (file : File) : bool :=
  match content file with Some _ => false | None => true end.

Definition lacks_column (col : string) (file : File) : bool :=
  match content file with
  | Some t => negb (existsb (fun c => String.eqb c col) (header t))
  | None => false
  end.

Definition has_bad_date (to_datetime : string -> option Timestamp)
           (file : File) : bool :=
  match content file with
  | Some t =>
      match column_index "Date" (header t) with
      | Some i =>
          existsb (fun line => match to_datetime (nth i line EmptyString) with
                               | Some _ => false
                               | None => true
                               end)
                  (body t)
      | None => false
      end
  | None => false
  end.

(** A file that cannot be read, has no ['Date'] column, or holds a date
    that does not parse. *)
Definition load_fails (to_datetime : string -> option Timestamp)
           (file : File) : bool :=
  unreadable file || lacks_column "Date" file || has_bad_date to_datetime file.

Definition row_count (files : list File) : nat :=
  list_sum (map (fun file => match content file with
                             | Some t => List.length (body t)
                             | None => O
                             end) files).

(** The failures the specification lists for a source whose value column is
    [value]: a file without the date or the value column, an unparseable
    date, no file, or no row. *)
Definition spec_must_fail (to_datetime : string -> option Timestamp)
           (value : string) (dir : Dir) : bool :=
  let found := filter is_csv (os_walk dir) in
  existsb (lacks_column "Date") found
  || existsb (lacks_column value) found
  || existsb (has_bad_date to_datetime) found
  || (List.length found =? 0)%nat
  || (row_count found =? 0)%nat.

(** ** Merger: [pd.merge(..., on='Date', how='inner')] and the sort *)

Section Merger.
Context {A B : Type}.

(** Every pair of a left row and a right row with the same date. *)
Definition pd_merge (l : list (Timestamp * A)) (r : list (Timestamp * B))
  : list (Timestamp * (A * B)) :=
  flat_map
    (fun x => map (fun y => (fst x, (snd x, snd y)))
                  (filter (fun y => date_eqb (fst x) (fst y)) r))
    l.

Definition combinedData (ghiCsvData : list (Timestamp * A))
           (prCsvData : list (Timestamp * B)) : list (Timestamp * (A * B)) :=
  sort_values fst (pd_merge ghiCsvData prCsvData).
End Merger.

Definition preprocessing (to_datetime : string -> option Timestamp)
           (ghiDir prDir : Dir) : Result (list (Timestamp * (Cells * Cells))) :=
  ghiCsvData <- csvWalker to_datetime ghiDir ;;
  prCsvData <- csvWalker to_datetime prDir ;;
  Ok (combinedData ghiCsvData prCsvData).

(** ** The persisted snapshot [combined.csv] as [plotter] reads it back *)

Record CombinedRow : Type := mkRow {
  Date : Timestamp;
  GHI : Q;
  PR : Q
}.

(** ** Range selector: [fetchCsvData] *)

Definition fetchCsvData (startDate endDate : option Timestamp)
           (file : list CombinedRow) : list CombinedRow :=
  let csvData := file in
  match startDate, endDate with
  | Some s, Some e =>
      let filteredData :=
        filter (fun r => date_leb s (Date r) && date_leb (Date r) e) csvData in
      sort_values Date filteredData
  | _, _ => sort_values Date csvData
  end.

(** ** Budget model: [budgetValues] *)

Definition initialBudget : Q := 739 # 10.
Definition reduceRate : Q := 8 # 1000.

(** [math.floor((date.year - startDate.year)
               + (date.month - startDate.month) // 12)]:
    [//] is floor division, [Z.div] here; [math.floor] of an [int] is that
    [int]. *)
Definition elapsed_years (date startDate : Timestamp) : Z :=
  (year date - year startDate) + (month date - month startDate) / 12.

Definition budget_at (date startDate : Timestamp) : Q :=
  (initialBudget * (1 - reduceRate) ^ elapsed_years date startDate)%Q.

(** The [for date in csvData['Date']] loop with its [budget.append(cur)]. *)
Fixpoint budget_loop (dates : list Timestamp) (startDate : Timestamp)
         (budget : list Q) : list Q :=
  match dates with
  | [] => budget
  | date :: rest =>
      let cur := budget_at date startDate in
      budget_loop rest startDate (budget ++ [cur])
  end.

Definition budgetValues (csvData : list CombinedRow) (startDate : Timestamp)
  : list Q :=
  budget_loop (map Date csvData) startDate [].

(** ** Rolling aggregator *)

Definition Qnat (n : nat) : Q := inject_Z (Z.of_nat n).

Definition Qsum (l : list Q) : Q := fold_right Qplus 0%Q l.

(** [Series.rolling(window).mean()]: one pass keeping the number [nobs] of
    rows in the window and their sum [sum_x]; a row leaves the window once
    [window] rows follow it; the mean is emitted when [nobs] reaches
    [min_periods], which defaults to [window]. *)
Fixpoint roll_loop (window : nat) (vals : list Q) (i nobs : nat) (sum_x : Q)
         (todo : list Q) : list (option Q) :=
  match todo with
  | [] => []
  | x :: rest =>
      let nobs1 := if (window <=? i)%nat then pred nobs else nobs in
      let sum1 := if (window <=? i)%nat
                  then (sum_x - nth (i - window) vals 0)%Q else sum_x in
      let nobs2 := S nobs1 in
      let sum2 := (sum1 + x)%Q in
      (if (window <=? nobs2)%nat then Some (sum2 / Qnat nobs2)%Q else None)
        :: roll_loop window vals (S i) nobs2 sum2 rest
  end.

Definition rolling_mean (window : nat) (vals : list Q) : list (option Q) :=
  roll_loop window vals 0 0 0%Q vals.

(** [Series.mean()]: NaN on an empty series. *)
Definition mean (vals : list Q) : option Q :=
  match vals with
  | [] => None
  | _ => Some (Qsum vals / Qnat (List.length vals))%Q
  end.

(** [Series.tail(n)]: the last [n] rows, all of them when there are fewer. *)
Definition tail {A : Type} (n : nat) (l : list A) : list A :=
  if (n =? 0)%nat then [] else skipn (List.length l - n) l.

(** ** Classifier: [pd.cut] *)

Inductive Edge : Type := NegInf | Fin (q : Q) | PosInf.

(** [e < x] for a bin edge and a finite value. *)
Definition edge_ltb (e : Edge) (x : Q) : bool :=
  match e with
  | NegInf => true
  | Fin q => negb (Qle_bool x q)
  | PosInf => false
  end.

(** [bins.searchsorted(x, side='left')] on ascending [bins]. *)
Fixpoint searchsorted_left (bins : list Edge) (x : Q) : nat :=
  match bins with
  | [] => O
  | e :: rest => if edge_ltb e x then S (searchsorted_left rest x) else O
  end.

Inductive Color : Type := navy | lightblue | orange | brown.

(** [pd.cut(x, bins, labels)] with its defaults [right=True],
    [include_lowest=False]: bin [ids] is [(bins[ids-1], bins[ids]]]. *)
Definition pd_cut (bins : list Edge) (labels : list Color) (x : Q)
  : option Color :=
  let ids := searchsorted_left bins x in
  if ((ids =? 0) || (ids =? List.length bins))%nat then None
  else nth_error labels (ids - 1).

Definition ghi_bins : list Edge := [NegInf; Fin 2; Fin 4; Fin 6; PosInf].
Definition ghi_labels : list Color := [navy; lightblue; orange; brown].

Definition color_of (ghi : Q) : option Color := pd_cut ghi_bins ghi_labels ghi.

(** The ordinal of a colour among the four bands. *)
Definition band (c : Color) : nat :=
  match c with navy => 1 | lightblue => 2 | orange => 3 | brown => 4 end.

(** ** Compliance counter *)

(** [(csvData['PR'] > csvData['Budget']).sum()]. *)
Definition count_above (pr budget : list Q) : nat :=
  List.length (filter (fun pb => negb (Qle_bool (fst pb) (snd pb)))
                 (combine pr budget)).

Definition percentage (points total : nat) : Q :=
  ((Qnat points / Qnat total) * 100)%Q.

(** ** [plotter] *)

(** What one run of [plotter] computes for the chart. *)
Record Chart : Type := mkChart {
  rows : list CombinedRow;
  PR_30avg : list (option Q);
  Budget : list Q;
  colors : list (option Color);
  pointsAboveBudget : nat;
  totalPoints : nat;
  percTotalPoints : Q;
  avg_pr_7d : option Q;
  avg_pr_30d : option Q;
  avg_pr_60d : option Q;
  avg_pr_90d : option Q;
  avg_pr_365d : option Q;
  avg_pr_lifetime : option Q
}.

(** How a run of [plotter] ends: the early [return] after printing, an
    uncaught exception, or the chart saved under a name built from the two
    dates and shown. *)
Inductive Outcome : Type :=
| NoData (printed : string)
| Raised (e : Exn)
| Plotted (chart : Chart) (savefig : Timestamp * Timestamp).

(** [Series.iloc[-1]]. *)
Definition iloc_last {A : Type} (l : list A) : option A :=
  nth_error l (List.length l - 1).

(** The defaults given when both arguments are absent:
    [csvData['Date'][0]] looks the label 0 up, the first line of the file,
    and [csvData['Date'].iloc[-1]] is the last row in date order. *)
Definition default_range (startDate endDate : option Timestamp)
           (file csvData : list CombinedRow)
  : Result (option Timestamp * option Timestamp) :=
  match startDate, endDate with
  | None, None =>
      match hd_error file, iloc_last csvData with
      | Some first, Some final => Ok (Some (Date first), Some (Date final))
      | _, _ => Err (KeyError "0")
      end
  | _, _ => Ok (startDate, endDate)
  end.

Definition plotter (startDate endDate : option Timestamp)
           (file : list CombinedRow) : Outcome :=
  let csvData := fetchCsvData startDate endDate file in
  if (List.length csvData =? 0)%nat then
    NoData "No Data for the given Date Range!"
  else
    match default_range startDate endDate file csvData with
    | Err e => Raised e
    | Ok (startDate, endDate) =>
        let pr := map PR csvData in
        let PR_30avg := rolling_mean 30 pr in
        match startDate with
        | None => Raised AttributeError (* startDate.year in budgetValues *)
        | Some s =>
            let Budget := budgetValues csvData s in
            let colors := map (fun r => color_of (GHI r)) csvData in
            let pointsAboveBudget := count_above pr Budget in
            let totalPoints := List.length csvData in
            let percTotalPoints := percentage pointsAboveBudget totalPoints in
            match endDate with
            | None => Raised AttributeError (* endDate.date() in the title *)
            | Some e =>
                Plotted
                  (mkChart csvData PR_30avg Budget colors
                           pointsAboveBudget totalPoints percTotalPoints
                           (mean (tail 7 pr)) (mean (tail 30 pr))
                           (mean (tail 60 pr)) (mean (tail 90 pr))
                           (mean (tail 365 pr)) (mean pr))
                  (s, e)
            end
        end
    end.

(** What a run leaves behind. *)
Definition stdout (o : Outcome) : list string :=
  match o with NoData msg => [msg] | _ => [] end.

Definition crashed (o : Outcome) : bool :=
  match o with Raised _ => true | _ => false end.

Definition chart_of (o : Outcome) : option Chart :=
  match o with Plotted c _ => Some c | _ => None end.

Definition image_file (o : Outcome) : option (Timestamp * Timestamp) :=
  match o with Plotted _ name => Some name | _ => None end.

(** ** The specification's formulas, for comparison *)

(** [floor((row.year - start.year) + floor((row.month - start.month) / 12))]
    with real division and real floor. *)
Definition elapsed_years_spec (row start : Timestamp) : Z :=
  Qfloor (inject_Z (year row - year start)
          + inject_Z (Qfloor (inject_Z (month row - month start) / 12)))%Q.

(** The sum, and the arithmetic mean, of the [n] rows [lo], [lo+1], ...,
    [lo+n-1]. *)
Definition range_sum (vals : list Q) (lo n : nat) : Q :=
  Qsum (map (fun j => nth j vals 0%Q) (seq lo n)).

Definition mean_of_rows (vals : list Q) (lo n : nat) : Q :=
  (range_sum vals lo n / Qnat n)%Q.

(** What the specification asks of the classifier: left-closed bands. *)
Definition band_spec (ghi : Q) : nat :=
  if Qle_bool 6 ghi then 4%nat
  else if Qle_bool 4 ghi then 3%nat
  else if Qle_bool 2 ghi then 2%nat
  else 1%nat.

(** ** Sample inputs *)

(** A date reader for the samples: zero-padded [YYYY-MM-DD] only. *)
Definition digit (c : ascii) : option Z :=
  let n := nat_of_ascii c in
  if ((48 <=? n) && (n <=? 57))%nat then Some (Z.of_nat (n - 48)) else None.

Fixpoint digits (s : string) (acc : Z) : option Z :=
  match s with
  | EmptyString => Some acc
  | String c rest =>
      match digit c with
      | Some d => digits rest (10 * acc + d)
      | None => None
      end
  end.

Definition ymd (s : string) : option Timestamp :=
  if ((String.length s =? 10)%nat
      && String.eqb (substring 4 1 s) "-"
      && String.eqb (substring 7 1 s) "-")%bool
  then
    match digits (substring 0 4 s) 0,
          digits (substring 5 2 s) 0,
          digits (substring 8 2 s) 0 with
    | Some y, Some m, Some d =>
        if ((1 <=? m) && (m <=? 12) && (1 <=? d) && (d <=? 31))%bool
        then Some (mkDate y m d) else None
    | _, _, _ => None
    end
  else None.

Definition jan (d : Z) : Timestamp := mkDate 2021 1 d.

(** The three merged rows of the specification's example scenario. *)
Definition sample_file : list CombinedRow :=
  [mkRow (jan 1) 1 75; mkRow (jan 2) 3 80; mkRow (jan 3) 5 70].

(** The two sources of the example scenario. *)
Definition sample_ghi : list (Timestamp * Q) :=
  [(jan 1, 1); (jan 2, 3); (jan 3, 5); (jan 4, 7); (jan 5, 1)]%Q.

Definition sample_pr : list (Timestamp * Q) :=
  [(jan 1, 75); (jan 2, 80); (jan 3, 70)]%Q.

(** A series that runs over two year boundaries. *)
Definition sample_years : list CombinedRow :=
  [mkRow (mkDate 2021 3 5) 1 75; mkRow (mkDate 2022 2 10) 3 74;
   mkRow (mkDate 2022 3 1) 5 73; mkRow (mkDate 2023 3 1) 7 70]%Q.

(** Thirty-one daily rows, PR = 1, 2, ..., 31. *)
Definition sample_month : list CombinedRow :=
  map (fun n => mkRow (jan (Z.of_nat n)) 3 (Qnat n)) (seq 1 31).

(** Source directory trees. *)
Local Open Scope string_scope.

Definition csv (name : string) (cols : list string)
           (lines : list (list string)) : File :=
  mkFile name (Some (mkRaw cols lines)).

Definition ghi_dir : Dir :=
  MkDir [mkFile "readme.txt" None]
        [MkDir [csv "2021-01.csv" ["GHI"; "Date"]
                    [["1"; "2021-01-01"]; ["3"; "2021-01-02"]];
                mkFile "2021-01.csv.bak" None] [];
         MkDir [csv "later.csv" ["Date"; "GHI"] [["2021-01-03"; "5"]]] []].

Definition pr_dir : Dir :=
  MkDir [csv "pr.csv" ["Date"; "PR"]
             [["2021-01-02"; "80"]; ["2021-01-01"; "75"]]] [].

(** A GHI file without its value column, and one with a header only. *)
Definition ghi_no_value : Dir :=
  MkDir [csv "a.csv" ["Date"] [["2021-01-01"]]] [].

Definition ghi_header_only : Dir :=
  MkDir [csv "a.csv" ["Date"; "GHI"] []] [].

(** A tree without a single [.csv] name. *)
Definition no_csv_dir : Dir :=
  MkDir [csv "notes.txt" ["Date"; "GHI"] [["2021-01-01"; "1"]]]
        [MkDir [csv "DATA.CSV" ["Date"; "GHI"] [["2021-01-02"; "2"]]] []].

(** A GHI tree whose second [.csv] file has no ['Date'] column and whose
    third holds a date that does not parse. *)
Definition ghi_bad_dir : Dir :=
  MkDir [csv "a.csv" ["Date"; "GHI"] [["2021-01-01"; "1"]];
         csv "b.csv" ["GHI"] [["2"]];
         csv "c.csv" ["Date"] [["someday"]]] [].

Local Close Scope string_scope.

(* ================================================================= *)
(** * Part II: properties *)
(* ================================================================= *)

(** ** The order on dates *)

Ltac date_cases :=
  unfold date_le, date_leb, date_eqb, date_compare in *;
  repeat match goal with
         | d : Timestamp |- _ => destruct d; simpl in *
         end;
  repeat match goal with
         | |- context [Z.compare ?x ?y] =>
             destruct (Z.compare_spec x y); simpl in *
         | H : context [Z.compare ?x ?y] |- _ =>
             destruct (Z.compare_spec x y); simpl in *
         end;
  subst; try congruence; try lia.

Lemma date_leb_refl (a : Timestamp) : date_leb a a = true.
Proof. date_cases. Qed.

Lemma date_leb_total (a b : Timestamp) :
  date_leb a b = true \/ date_leb b a = true.
Proof. date_cases; auto. Qed.

Lemma date_leb_false (a b : Timestamp) :
  date_leb a b = false -> date_leb b a = true.
Proof. intros H. destruct (date_leb_total a b); congruence. Qed.

Lemma date_leb_trans (a b c : Timestamp) :
  date_leb a b = true -> date_leb b c = true -> date_leb a c = true.
Proof. date_cases. Qed.

Lemma date_eqb_eq (a b : Timestamp) : date_eqb a b = true <-> a = b.
Proof.
  split.
  - date_cases.
  - intros ->. date_cases.
Qed.

Lemma date_eqb_refl (a : Timestamp) : date_eqb a a = true.
Proof. now apply date_eqb_eq. Qed.

Lemma date_le_antisym (a b : Timestamp) :
  date_le a b -> date_le b a -> a = b.
Proof. date_cases. Qed.

(** ** [sort_values] orders and keeps the rows *)

Section SortFacts.
Context {A : Type}.
Variable key : A -> Timestamp.

Lemma insert_by_perm (x : A) (l : list A) :
  Permutation (x :: l) (insert_by key x l).
Proof.
  induction l as [|y t IH]; simpl.
  - reflexivity.
  - destruct (date_leb (key x) (key y)).
    + reflexivity.
    + rewrite perm_swap. now apply perm_skip.
Qed.

Lemma sort_values_perm (l : list A) : Permutation l (sort_values key l).
Proof.
  induction l as [|x t IH]; simpl.
  - constructor.
  - rewrite <- insert_by_perm. now apply perm_skip.
Qed.

Lemma insert_by_sorted (x : A) (l : list A) :
  StronglySorted (key_le key) l -> StronglySorted (key_le key) (insert_by key x l).
Proof.
  induction 1 as [|y t Hs IH Hall]; simpl.
  - repeat constructor.
  - destruct (date_leb (key x) (key y)) eqn:E.
    + constructor; [now constructor|].
      constructor; [exact E|].
      apply Forall_forall. intros z Hz.
      rewrite Forall_forall in Hall.
      apply (date_leb_trans _ (key y)); [exact E | now apply Hall].
    + constructor; [exact IH|].
      apply (Permutation_Forall (insert_by_perm x t)).
      constructor; [now apply date_leb_false | exact Hall].
Qed.

Lemma sort_values_sorted (l : list A) :
  StronglySorted (key_le key) (sort_values key l).
Proof.
  induction l as [|x t IH]; simpl.
  - constructor.
  - now apply insert_by_sorted.
Qed.

Lemma sort_values_In (x : A) (l : list A) :
  In x (sort_values key l) <-> In x l.
Proof.
  split; apply Permutation_in;
    [symmetry|]; apply sort_values_perm.
Qed.

Lemma sort_values_length (l : list A) :
  List.length (sort_values key l) = List.length l.
Proof. symmetry. apply Permutation_length, sort_values_perm. Qed.
End SortFacts.


(** ** Range selector *)

(** C1. When both bounds are absent [fetchCsvData] returns every row of the
    merged series, ordered by date, and a call with exactly one bound returns
    that same full ordered series. *)
Theorem fetchCsvData_full_series (file : list CombinedRow) (s e : Timestamp) :
  Permutation file (fetchCsvData None None file) /\
  StronglySorted (key_le Date) (fetchCsvData None None file) /\
  fetchCsvData (Some s) None file = fetchCsvData None None file /\
  fetchCsvData None (Some e) file = fetchCsvData None None file.
Proof.
  unfold fetchCsvData.
  repeat split.
  - apply sort_values_perm.
  - apply sort_values_sorted.
Qed.

Lemma fetchCsvData_window (file : list CombinedRow) (s e : Timestamp)
      (row : CombinedRow) :
  In row (fetchCsvData (Some s) (Some e) file) <->
  In row file /\ date_le s (Date row) /\ date_le (Date row) e.
Proof.
  unfold fetchCsvData, date_le.
  rewrite sort_values_In, filter_In, andb_true_iff.
  reflexivity.
Qed.

(** ** Merger *)

Section MergerFacts.
Context {A B : Type}.
Implicit Types (l : list (Timestamp * A)) (r : list (Timestamp * B)).

Lemma pd_merge_In l r (d : Timestamp) (a : A) (b : B) :
  In (d, (a, b)) (pd_merge l r) <-> In (d, a) l /\ In (d, b) r.
Proof.
  unfold pd_merge. rewrite in_flat_map. split.
  - intros [[d1 a1] [Hl Hm]].
    apply in_map_iff in Hm. destruct Hm as [[d2 b2] [Heq Hf]].
    apply filter_In in Hf. destruct Hf as [Hr Hd].
    simpl in *. apply date_eqb_eq in Hd. inversion Heq; subst. auto.
  - intros [Hl Hr]. exists (d, a). split; [exact Hl|].
    apply in_map_iff. exists (d, b). split; [reflexivity|].
    apply filter_In. split; [exact Hr|]. apply date_eqb_refl.
Qed.

Lemma pd_merge_dates l r (d : Timestamp) :
  In d (map fst (pd_merge l r)) <-> In d (map fst l) /\ In d (map fst r).
Proof.
  rewrite !in_map_iff. split.
  - intros [[d1 [a b]] [Hd Hin]]. simpl in Hd. subst d1.
    apply pd_merge_In in Hin. destruct Hin as [Hl Hr].
    split; [exists (d, a) | exists (d, b)]; auto.
  - intros [[[d1 a] [Hd1 Hl]] [[d2 b] [Hd2 Hr]]]. simpl in *. subst.
    exists (d, (a, b)). split; [reflexivity|]. now apply pd_merge_In.
Qed.

(** With unique dates on the right, a left row finds at most one partner. *)
Lemma partners_unique r (d : Timestamp) :
  NoDup (map fst r) ->
  (List.length (filter (fun y => date_eqb d (fst y)) r) <= 1)%nat.
Proof.
  induction r as [|[d1 b] t IH]; simpl; intros Hnd.
  - lia.
  - inversion Hnd as [|? ? Hnot Hnd']; subst.
    destruct (date_eqb d d1) eqn:E.
    + apply date_eqb_eq in E. subst d1. simpl.
      assert (Hnil : filter (fun y => date_eqb d (fst y)) t = []).
      { destruct (filter _ t) as [|[d2 b2] rest] eqn:F; [reflexivity|].
        exfalso. apply Hnot.
        assert (Hin : In (d2, b2) (filter (fun y => date_eqb d (fst y)) t))
          by (rewrite F; left; reflexivity).
        apply filter_In in Hin. destruct Hin as [Hin Hd].
        simpl in Hd. apply date_eqb_eq in Hd. subst d2.
        apply in_map_iff. exists (d, b2). auto. }
      rewrite Hnil. simpl. lia.
    + now apply IH.
Qed.

Lemma pd_merge_NoDup l r :
  NoDup (map fst l) -> NoDup (map fst r) -> NoDup (map fst (pd_merge l r)).
Proof.
  intros Hl Hr. induction l as [|[d a] t IH].
  - constructor.
  - inversion Hl as [|? ? Hnot Hl']; subst.
    change (pd_merge ((d, a) :: t) r)
      with (map (fun y => (d, (a, snd y)))
                (filter (fun y => date_eqb d (fst y)) r) ++ pd_merge t r).
    rewrite map_app. apply NoDup_app.
    + pose proof (partners_unique r d Hr) as Hlen.
      destruct (filter (fun y => date_eqb d (fst y)) r) as [|y [|z rest]];
        simpl in *; try lia; repeat constructor; simpl; tauto.
    + now apply IH.
    + intros d' Hin Hin'.
      apply in_map_iff in Hin. destruct Hin as [[d1 ab] [Hd1 Hin]].
      apply in_map_iff in Hin. destruct Hin as [y [Hy _]].
      inversion Hy; subst. simpl in *.
      apply pd_merge_dates in Hin'. tauto.
Qed.

Lemma one_row_per_date {C : Type} (rows : list (Timestamp * C))
      (d : Timestamp) :
  NoDup (map fst rows) -> In d (map fst rows) ->
  List.length (filter (fun row => date_eqb d (fst row)) rows) = 1%nat.
Proof.
  induction rows as [|[d1 c] t IH]; simpl; intros Hnd Hin.
  - contradiction.
  - inversion Hnd as [|? ? Hnot Hnd']; subst.
    destruct (date_eqb d d1) eqn:E.
    + apply date_eqb_eq in E. subst d1. simpl. f_equal.
      destruct (filter _ t) as [|[d2 c2] rest] eqn:F; [reflexivity|].
      exfalso. apply Hnot.
      assert (Hin2 : In (d2, c2) (filter (fun row => date_eqb d (fst row)) t))
        by (rewrite F; left; reflexivity).
      apply filter_In in Hin2. destruct Hin2 as [Hin2 Hd].
      simpl in Hd. apply date_eqb_eq in Hd. subst d2.
      apply in_map_iff. exists (d, c2). auto.
    + destruct Hin as [Heq|Hin].
      * subst d1. rewrite date_eqb_refl in E. discriminate.
      * now apply IH.
Qed.
End MergerFacts.

Lemma StronglySorted_map {A : Type} (key : A -> Timestamp) (l : list A) :
  StronglySorted (key_le key) l -> StronglySorted date_le (map key l).
Proof.
  induction 1 as [|x t Hs IH Hall]; simpl; constructor; auto.
  apply Forall_map. exact Hall.
Qed.

(** C6. With unique dates within each source, the combined series holds a
    date exactly when both sources hold it, holds it in one row only, and is
    in non-decreasing date order. *)
Theorem combinedData_inner_join {A B : Type}
        (ghiCsvData : list (Timestamp * A)) (prCsvData : list (Timestamp * B)) :
  NoDup (map fst ghiCsvData) -> NoDup (map fst prCsvData) ->
  (forall d, In d (map fst (combinedData ghiCsvData prCsvData)) <->
             In d (map fst ghiCsvData) /\ In d (map fst prCsvData)) /\
  (forall d, In d (map fst ghiCsvData) -> In d (map fst prCsvData) ->
             List.length (filter (fun row => date_eqb d (fst row))
                                 (combinedData ghiCsvData prCsvData)) = 1%nat) /\
  StronglySorted date_le (map fst (combinedData ghiCsvData prCsvData)).
Proof.
  intros Hg Hp. unfold combinedData.
  assert (Hperm : Permutation (map fst (pd_merge ghiCsvData prCsvData))
                    (map fst (sort_values fst (pd_merge ghiCsvData prCsvData))))
    by apply Permutation_map, sort_values_perm.
  assert (Hdates : forall d,
             In d (map fst (sort_values fst (pd_merge ghiCsvData prCsvData))) <->
             In d (map fst ghiCsvData) /\ In d (map fst prCsvData)).
  { intros d. rewrite <- pd_merge_dates. split; apply Permutation_in; auto.
    now symmetry. }
  split; [exact Hdates|]. split.
  - intros d Hd1 Hd2. apply one_row_per_date.
    + apply (Permutation_NoDup Hperm). now apply pd_merge_NoDup.
    + apply Hdates. auto.
  - apply StronglySorted_map, sort_values_sorted.
Qed.

Ltac nodup_dates :=
  repeat (constructor; [simpl; intuition discriminate|]); constructor.

Example combinedData_sample :
  combinedData sample_ghi sample_pr
  = [(jan 1, (1, 75)); (jan 2, (3, 80)); (jan 3, (5, 70))]%Q.
Proof. reflexivity. Qed.

Lemma combinedData_inner_join_witness :
  NoDup (map fst sample_ghi) /\ NoDup (map fst sample_pr) /\
  (forall d, In d (map fst (combinedData sample_ghi sample_pr)) <->
             In d (map fst sample_ghi) /\ In d (map fst sample_pr)) /\
  (forall d, In d (map fst sample_ghi) -> In d (map fst sample_pr) ->
             List.length (filter (fun row => date_eqb d (fst row))
                                 (combinedData sample_ghi sample_pr)) = 1%nat) /\
  StronglySorted date_le (map fst (combinedData sample_ghi sample_pr)).
Proof.
  assert (Hg : NoDup (map fst sample_ghi)) by nodup_dates.
  assert (Hp : NoDup (map fst sample_pr)) by nodup_dates.
  split; [exact Hg|]. split; [exact Hp|].
  exact (combinedData_inner_join sample_ghi sample_pr Hg Hp).
Defined.

(** ** Classifier *)

Lemma Qle_bool_false (x y : Q) : Qle_bool x y = false <-> (y < x)%Q.
Proof.
  rewrite <- not_true_iff_false, Qle_bool_iff. split.
  - apply Qnot_le_lt.
  - apply Qlt_not_le.
Qed.

(** The bands of [pd.cut] are closed on the right. *)
Lemma color_of_cases (ghi : Q) :
  ((ghi <= 2 /\ color_of ghi = Some navy) \/
   (2 < ghi /\ ghi <= 4 /\ color_of ghi = Some lightblue) \/
   (4 < ghi /\ ghi <= 6 /\ color_of ghi = Some orange) \/
   (6 < ghi /\ color_of ghi = Some brown))%Q.
Proof.
  unfold color_of, pd_cut, ghi_bins, ghi_labels, searchsorted_left, edge_ltb.
  destruct (Qle_bool ghi 2) eqn:E2; simpl.
  { apply Qle_bool_iff in E2. auto. }
  apply Qle_bool_false in E2.
  destruct (Qle_bool ghi 4) eqn:E4; simpl.
  { apply Qle_bool_iff in E4. auto 10. }
  apply Qle_bool_false in E4.
  destruct (Qle_bool ghi 6) eqn:E6; simpl.
  { apply Qle_bool_iff in E6. auto 10. }
  apply Qle_bool_false in E6. auto 10.
Qed.

(** C2, as the code has it. The classifier is total: every ghi gets exactly
    one of the four bands. Below 2 it is band 1 (navy); above 2 and up to 4,
    band 2 (lightblue); above 4 and up to 6, band 3 (orange); above 6,
    band 4 (brown). The thresholds 4 and 6 close their band on the right. *)
Theorem color_of_bands (ghi : Q) :
  exists c, color_of ghi = Some c /\
    ((ghi < 2 -> c = navy /\ band c = 1%nat) /\
     (2 < ghi /\ ghi <= 4 -> c = lightblue /\ band c = 2%nat) /\
     (4 < ghi /\ ghi <= 6 -> c = orange /\ band c = 3%nat) /\
     (6 < ghi -> c = brown /\ band c = 4%nat))%Q.
Proof.
  destruct (color_of_cases ghi)
    as [[H1 Hc]|[[H1 [H2 Hc]]|[[H1 [H2 Hc]]|[H1 Hc]]]];
    rewrite Hc; eexists; (split; [reflexivity|]);
    repeat split; intros; try reflexivity; exfalso; lra.
Qed.

Lemma color_of_bands_witness :
  ((19 # 10) < 2 /\ color_of (19 # 10) = Some navy)%Q /\
  ((2 < 4 /\ 4 <= 4) /\ color_of 4 = Some lightblue)%Q /\
  ((4 < 6 /\ 6 <= 6) /\ color_of 6 = Some orange)%Q /\
  (6 < 7 /\ color_of 7 = Some brown)%Q.
Proof.
  assert (H1 : ((19 # 10) < 2)%Q) by reflexivity.
  assert (H2 : (2 < 4 /\ 4 <= 4)%Q) by (split; [reflexivity | discriminate]).
  assert (H3 : (4 < 6 /\ 6 <= 6)%Q) by (split; [reflexivity | discriminate]).
  assert (H4 : (6 < 7)%Q) by reflexivity.
  split.
  { split; [exact H1|].
    destruct (color_of_bands (19 # 10)) as [c [Hc [H _]]].
    destruct (H H1) as [E _]. rewrite Hc, E. reflexivity. }
  split.
  { split; [exact H2|].
    destruct (color_of_bands 4) as [c [Hc [_ [H _]]]].
    destruct (H H2) as [E _]. rewrite Hc, E. reflexivity. }
  split.
  { split; [exact H3|].
    destruct (color_of_bands 6) as [c [Hc [_ [_ [H _]]]]].
    destruct (H H3) as [E _]. rewrite Hc, E. reflexivity. }
  split; [exact H4|].
  destruct (color_of_bands 7) as [c [Hc [_ [_ [_ H]]]]].
  destruct (H H4) as [E _]. rewrite Hc, E. reflexivity.
Defined.

(** The left-closed reading fails at the upper thresholds: 4.0 is lightblue
    (band 2, not band 3) and 6.0 is orange (band 3, not band 4). *)
Lemma color_of_not_left_closed :
  option_map band (color_of 4) = Some 2%nat /\ band_spec 4 = 3%nat /\
  option_map band (color_of 6) = Some 3%nat /\ band_spec 6 = 4%nat /\
  ~ (forall ghi : Q, option_map band (color_of ghi) = Some (band_spec ghi)).
Proof.
  repeat split.
  intros H. specialize (H 6%Q). discriminate H.
Qed.

Example color_of_samples :
  color_of (19 # 10) = Some navy /\ color_of 2 = Some navy /\
  color_of (5999 # 1000) = Some orange /\
  color_of 4 = Some lightblue /\ color_of 7 = Some brown.
Proof. repeat split. Qed.

(** ** Budget model *)

Lemma elapsed_years_spec_eq (row start : Timestamp) :
  elapsed_years_spec row start = elapsed_years row start.
Proof.
  unfold elapsed_years_spec, elapsed_years.
  change 12%Q with (inject_Z 12).
  rewrite <- Zdiv_Qdiv, <- inject_Z_plus.
  apply Qfloor_Z.
Qed.

Lemma budget_loop_app (dates : list Timestamp) (s : Timestamp) (acc : list Q) :
  budget_loop dates s acc = acc ++ map (fun d => budget_at d s) dates.
Proof.
  revert acc. induction dates as [|d t IH]; intros acc; simpl.
  - now rewrite app_nil_r.
  - rewrite IH, <- app_assoc. reflexivity.
Qed.

Lemma budgetValues_map (csvData : list CombinedRow) (s : Timestamp) :
  budgetValues csvData s = map (fun r => budget_at (Date r) s) csvData.
Proof.
  unfold budgetValues. rewrite budget_loop_app, map_map. reflexivity.
Qed.

Lemma elapsed_years_nonneg (d s : Timestamp) :
  valid_date d -> valid_date s -> date_le s d -> 0 <= elapsed_years d s.
Proof.
  unfold valid_date, elapsed_years. intros [Hd _] [Hs _] Hle.
  assert (Hcases : year s < year d \/ (year s = year d /\ month s <= month d))
    by date_cases.
  assert (Hdiv : -1 <= (month d - month s) / 12)
    by (apply Z.div_le_lower_bound; lia).
  destruct Hcases as [Hlt|[Heq Hm]].
  - lia.
  - assert (0 <= (month d - month s) / 12) by (apply Z.div_pos; lia). lia.
Qed.

(** C3. Row by row, the budget is 73.9 x (1 - 0.008)^e with
    e = floor((row.year - s.year) + floor((row.month - s.month) / 12)), and
    e is a non-negative integer for every row dated on or after s. *)
Theorem budgetValues_formula (csvData : list CombinedRow) (s : Timestamp) :
  List.length (budgetValues csvData s) = List.length csvData /\
  (forall i row, nth_error csvData i = Some row ->
     nth_error (budgetValues csvData s) i
     = Some ((739 # 10) * (1 - (8 # 1000)) ^ elapsed_years_spec (Date row) s)%Q) /\
  (forall row, In row csvData ->
     valid_date (Date row) -> valid_date s -> date_le s (Date row) ->
     0 <= elapsed_years_spec (Date row) s).
Proof.
  rewrite budgetValues_map. repeat split.
  - apply length_map.
  - intros i row Hrow. rewrite nth_error_map, Hrow. simpl.
    rewrite elapsed_years_spec_eq. reflexivity.
  - intros row _ Hd Hs Hle. rewrite elapsed_years_spec_eq.
    now apply elapsed_years_nonneg.
Qed.

Example budgetValues_sample :
  budgetValues sample_years (mkDate 2021 3 5)
  = [ (739 # 10) * 1; (739 # 10) * 1;
      (739 # 10) * ((992 # 1000) * 1);
      (739 # 10) * ((992 # 1000) * ((992 # 1000) * 1)) ]%Q.
Proof. reflexivity. Qed.

Lemma budgetValues_formula_witness :
  valid_date (mkDate 2022 2 10) /\ valid_date (mkDate 2021 3 5) /\
  date_le (mkDate 2021 3 5) (mkDate 2022 2 10) /\
  0 <= elapsed_years_spec (mkDate 2022 2 10) (mkDate 2021 3 5).
Proof.
  assert (Hd : valid_date (mkDate 2022 2 10)) by (unfold valid_date; simpl; lia).
  assert (Hs : valid_date (mkDate 2021 3 5)) by (unfold valid_date; simpl; lia).
  assert (Hle : date_le (mkDate 2021 3 5) (mkDate 2022 2 10)) by reflexivity.
  split; [exact Hd|]. split; [exact Hs|]. split; [exact Hle|].
  destruct (budgetValues_formula sample_years (mkDate 2021 3 5)) as [_ [_ H]].
  apply (H (mkRow (mkDate 2022 2 10) 3 74)); try assumption.
  simpl. auto.
Defined.

(** ** The empty selection *)

(** C7. When the selected range has no rows, [plotter] prints its diagnostic
    and returns: no exception, no budget curve, no rolling average, no
    image file. *)
Theorem plotter_empty_range (startDate endDate : option Timestamp)
        (file : list CombinedRow) :
  fetchCsvData startDate endDate file = [] ->
  plotter startDate endDate file = NoData "No Data for the given Date Range!" /\
  stdout (plotter startDate endDate file)
    = ["No Data for the given Date Range!"%string] /\
  crashed (plotter startDate endDate file) = false /\
  option_map Budget (chart_of (plotter startDate endDate file)) = None /\
  option_map PR_30avg (chart_of (plotter startDate endDate file)) = None /\
  image_file (plotter startDate endDate file) = None.
Proof.
  intros Hempty.
  assert (Hrun : plotter startDate endDate file
                 = NoData "No Data for the given Date Range!")
    by (unfold plotter; rewrite Hempty; reflexivity).
  rewrite Hrun. repeat split.
Qed.

Lemma plotter_empty_range_witness :
  fetchCsvData (Some (mkDate 2022 1 1)) (Some (mkDate 2022 12 31)) sample_file
    = [] /\
  plotter (Some (mkDate 2022 1 1)) (Some (mkDate 2022 12 31)) sample_file
    = NoData "No Data for the given Date Range!".
Proof.
  split; [reflexivity|].
  apply (plotter_empty_range (Some (mkDate 2022 1 1))
                             (Some (mkDate 2022 12 31)) sample_file).
  reflexivity.
Defined.

(** ** What a plotted chart holds *)

Lemma plotter_Plotted (startDate endDate : option Timestamp)
      (file : list CombinedRow) (chart : Chart) (name : Timestamp * Timestamp) :
  plotter startDate endDate file = Plotted chart name ->
  let csvData := fetchCsvData startDate endDate file in
  let pr := map PR csvData in
  csvData <> [] /\
  chart = mkChart csvData (rolling_mean 30 pr)
            (budgetValues csvData (fst name))
            (map (fun r => color_of (GHI r)) csvData)
            (count_above pr (budgetValues csvData (fst name)))
            (List.length csvData)
            (percentage (count_above pr (budgetValues csvData (fst name)))
                        (List.length csvData))
            (mean (tail 7 pr)) (mean (tail 30 pr)) (mean (tail 60 pr))
            (mean (tail 90 pr)) (mean (tail 365 pr)) (mean pr).
Proof.
  unfold plotter. intros H.
  destruct (fetchCsvData startDate endDate file) as [|r0 rest] eqn:Hsel;
    [discriminate H|].
  split; [discriminate|].
  simpl in H.
  destruct (default_range startDate endDate file (r0 :: rest))
    as [[[s|] [e|]]|err]; try discriminate H.
  inversion H; subst. reflexivity.
Qed.

(** ** Compliance counter *)

Lemma Qnat_pos (n : nat) : (0 < n)%nat -> (0 < Qnat n)%Q.
Proof.
  intros H. unfold Qnat. change 0%Q with (inject_Z 0).
  rewrite <- Zlt_Qlt. lia.
Qed.

Lemma Qnat_le (n m : nat) : (n <= m)%nat -> (Qnat n <= Qnat m)%Q.
Proof. intros H. unfold Qnat. rewrite <- Zle_Qle. lia. Qed.

Lemma count_above_rows (csvData : list CombinedRow) (f : CombinedRow -> Q) :
  count_above (map PR csvData) (map f csvData)
  = List.length
      (filter (fun r => if Qlt_le_dec (f r) (PR r) then true else false)
              csvData).
Proof.
  unfold count_above. induction csvData as [|r t IH]; simpl.
  - reflexivity.
  - destruct (Qlt_le_dec (f r) (PR r)) as [Hlt|Hle].
    + apply Qle_bool_false in Hlt. rewrite Hlt. simpl. now rewrite IH.
    + apply Qle_bool_iff in Hle. rewrite Hle. simpl. exact IH.
Qed.

Lemma percentage_value (points total : nat) :
  (0 < total)%nat ->
  (percentage points total == 100 * Qnat points / Qnat total)%Q.
Proof.
  intros H. unfold percentage.
  assert (~ Qnat total == 0)%Q
    by (intros E; pose proof (Qnat_pos total H) as P; rewrite E in P;
        now apply Qlt_irrefl in P).
  field. assumption.
Qed.

Lemma percentage_bounds (points total : nat) :
  (0 < total)%nat -> (points <= total)%nat ->
  (0 <= percentage points total /\ percentage points total <= 100)%Q.
Proof.
  intros Hpos Hle. unfold percentage.
  pose proof (Qnat_pos total Hpos) as Ht.
  pose proof (Qnat_le points total Hle) as Hpt.
  pose proof (Qnat_le 0 points (Nat.le_0_l _)) as Hp0.
  change (Qnat 0) with 0%Q in Hp0.
  assert (H0 : (0 <= Qnat points / Qnat total)%Q)
    by (apply Qle_shift_div_l; [exact Ht | lra]).
  assert (H1 : (Qnat points / Qnat total <= 1)%Q)
    by (apply Qle_shift_div_r; [exact Ht | lra]).
  split; lra.
Qed.

(** C4. For a plotted (hence non-empty) selected series the compliance
    percentage is 100 x (rows with pr strictly above their budget) / (all
    rows), and it lies between 0 and 100. *)
Theorem compliance_percentage (startDate endDate : option Timestamp)
        (file : list CombinedRow) (chart : Chart)
        (name : Timestamp * Timestamp) :
  plotter startDate endDate file = Plotted chart name ->
  let above :=
    List.length
      (filter (fun r => if Qlt_le_dec (budget_at (Date r) (fst name)) (PR r)
                        then true else false)
              (rows chart)) in
  rows chart = fetchCsvData startDate endDate file /\
  rows chart <> [] /\
  pointsAboveBudget chart = above /\
  totalPoints chart = List.length (rows chart) /\
  (percTotalPoints chart == 100 * Qnat above / Qnat (List.length (rows chart)))%Q /\
  (0 <= percTotalPoints chart /\ percTotalPoints chart <= 100)%Q.
Proof.
  intros Hrun above.
  apply plotter_Plotted in Hrun. destruct Hrun as [Hne Hchart].
  subst chart. simpl in *.
  set (csvData := fetchCsvData startDate endDate file) in *.
  assert (Hcount : count_above (map PR csvData)
                               (budgetValues csvData (fst name)) = above)
    by (rewrite budgetValues_map; apply count_above_rows).
  assert (Hpos : (0 < List.length csvData)%nat)
    by (destruct csvData; [congruence | simpl; lia]).
  rewrite Hcount.
  repeat split; try assumption.
  - now apply percentage_value.
  - apply percentage_bounds; [exact Hpos | apply filter_length_le].
  - apply percentage_bounds; [exact Hpos | apply filter_length_le].
Qed.

Example plotter_sample :
  exists chart,
    plotter (Some (jan 1)) (Some (jan 3)) sample_file
      = Plotted chart (jan 1, jan 3) /\
    Budget chart = [(739 # 10) * 1; (739 # 10) * 1; (739 # 10) * 1]%Q /\
    pointsAboveBudget chart = 2%nat /\ totalPoints chart = 3%nat /\
    (percTotalPoints chart == 200 # 3)%Q /\
    colors chart = [Some navy; Some lightblue; Some orange].
Proof. eexists. split; [reflexivity|]. repeat split. Qed.

Lemma compliance_percentage_witness :
  exists chart,
    plotter (Some (jan 1)) (Some (jan 3)) sample_file
      = Plotted chart (jan 1, jan 3) /\
    (0 <= percTotalPoints chart /\ percTotalPoints chart <= 100)%Q.
Proof.
  eexists. split; [reflexivity|].
  apply (compliance_percentage (Some (jan 1)) (Some (jan 3)) sample_file
                               _ (jan 1, jan 3)).
  reflexivity.
Defined.

(** ** Rolling aggregator *)

Lemma Qsum_app (a b : list Q) : (Qsum (a ++ b) == Qsum a + Qsum b)%Q.
Proof.
  induction a as [|x t IH]; simpl.
  - ring.
  - rewrite IH. ring.
Qed.

Lemma range_sum_cons (vals : list Q) (lo n : nat) :
  range_sum vals lo (S n) = (nth lo vals 0 + range_sum vals (S lo) n)%Q.
Proof. reflexivity. Qed.

Lemma range_sum_snoc (vals : list Q) (lo n : nat) :
  (range_sum vals lo (S n) == range_sum vals lo n + nth (lo + n) vals 0)%Q.
Proof.
  unfold range_sum. rewrite seq_S, map_app, Qsum_app. simpl. ring.
Qed.

Lemma skipn_cons_nth {A : Type} (i : nat) (l : list A) (x d : A)
      (rest : list A) :
  skipn i l = x :: rest -> nth i l d = x /\ skipn (S i) l = rest.
Proof.
  revert l. induction i as [|i IH]; intros [|y t] H;
    try (simpl in H; discriminate H).
  - simpl in H. inversion H. auto.
  - change (skipn i t = x :: rest) in H.
    change (nth i t d = x /\ skipn (S i) t = rest).
    now apply IH.
Qed.

(** One turn of the loop keeps [nobs] and [sum_x] in step with the window
    that ends at the current row. *)
Lemma roll_step (w : nat) (vals : list Q) (i : nat) (x sum_x : Q) :
  (0 < w)%nat -> nth i vals 0%Q = x ->
  (sum_x == range_sum vals (i - Nat.min i w) (Nat.min i w))%Q ->
  S (if (w <=? i)%nat then pred (Nat.min i w) else Nat.min i w)
    = Nat.min (S i) w /\
  ((if (w <=? i)%nat then sum_x - nth (i - w) vals 0 else sum_x) + x
   == range_sum vals (S i - Nat.min (S i) w) (Nat.min (S i) w))%Q.
Proof.
  intros Hw Hx Hsum.
  destruct (Nat.leb_spec w i) as [Hle|Hlt].
  - rewrite Nat.min_r in * by lia.
    replace (Nat.min (S i) w) with w by lia.
    split; [lia|].
    destruct w as [|w']; [lia|].
    rewrite Hsum, range_sum_cons, range_sum_snoc.
    replace (S i - S w')%nat with (S (i - S w')) by lia.
    replace (S (i - S w') + w')%nat with i by lia.
    rewrite Hx. ring.
  - rewrite Nat.min_l in * by lia.
    replace (Nat.min (S i) w) with (S i) by lia.
    split; [reflexivity|].
    replace (i - i)%nat with 0%nat in Hsum by lia.
    replace (S i - S i)%nat with 0%nat by lia.
    rewrite range_sum_snoc, Hsum. simpl. rewrite Hx. ring.
Qed.

Lemma roll_loop_spec (w : nat) (vals : list Q) :
  (0 < w)%nat ->
  forall (todo : list Q) (i nobs : nat) (sum_x : Q),
    skipn i vals = todo -> nobs = Nat.min i w ->
    (sum_x == range_sum vals (i - nobs) nobs)%Q ->
    forall k, (k < List.length todo)%nat ->
    exists out,
      nth_error (roll_loop w vals i nobs sum_x todo) k = Some out /\
      match out with
      | None => (i + k + 1 < w)%nat
      | Some q => (w <= i + k + 1)%nat /\
                  (q == mean_of_rows vals (i + k + 1 - w) w)%Q
      end.
Proof.
  intros Hw. induction todo as [|x rest IH];
    intros i nobs sum_x Hskip Hnobs Hsum k Hk; simpl in Hk; [lia|].
  destruct (skipn_cons_nth i vals x 0%Q rest Hskip) as [Hx Hrest].
  subst nobs.
  destruct (roll_step w vals i x sum_x Hw Hx Hsum) as [Hn2 Hs2].
  simpl. rewrite Hn2.
  remember (Nat.min (S i) w) as n2 eqn:En2.
  destruct k as [|k].
  - simpl. eexists. split; [reflexivity|].
    destruct (Nat.leb_spec w n2) as [Hle|Hlt].
    + assert (E : n2 = w) by lia. rewrite E in Hs2 |- *.
      split; [lia|]. unfold mean_of_rows.
      replace (i + 0 + 1 - w)%nat with (S i - w)%nat by lia.
      rewrite Hs2. reflexivity.
    + lia.
  - simpl.
    destruct (IH (S i) n2 _ Hrest En2 Hs2 k ltac:(lia))
      as [out [Hout Hspec]].
    exists out. split; [exact Hout|].
    replace (i + S k + 1)%nat with (S i + k + 1)%nat by lia. exact Hspec.
Qed.

Lemma rolling_mean_spec (w : nat) (vals : list Q) (i : nat) :
  (0 < w)%nat -> (i < List.length vals)%nat ->
  ((i + 1 < w)%nat /\ nth_error (rolling_mean w vals) i = Some None) \/
  ((w <= i + 1)%nat /\
   exists q, nth_error (rolling_mean w vals) i = Some (Some q) /\
             (q == mean_of_rows vals (i + 1 - w) w)%Q).
Proof.
  intros Hw Hi. unfold rolling_mean.
  destruct (roll_loop_spec w vals Hw vals 0 0 0%Q eq_refl eq_refl
                           ltac:(reflexivity) i Hi) as [[q|] [Hout Hspec]];
    simpl in Hspec.
  - right. destruct Hspec as [Hle Hq]. split; [exact Hle|]. eauto.
  - left. auto.
Qed.

Lemma rolling_mean_length (w : nat) (vals : list Q) :
  List.length (rolling_mean w vals) = List.length vals.
Proof.
  unfold rolling_mean. generalize vals at 1 as all.
  generalize 0%nat at 1 as i. generalize 0%nat as nobs. generalize 0%Q as s.
  induction vals as [|x t IH]; intros; simpl; [reflexivity|].
  now rewrite IH.
Qed.

(** C5. In the chart, the 30-row rolling average at 0-based row i is
    missing for i < 29 and is the arithmetic mean of rows i-29 .. i of the
    selected series for i >= 29. *)
Theorem PR_30avg_rolling (startDate endDate : option Timestamp)
        (file : list CombinedRow) (chart : Chart)
        (name : Timestamp * Timestamp) (i : nat) :
  plotter startDate endDate file = Plotted chart name ->
  (i < List.length (rows chart))%nat ->
  ((i < 29)%nat /\ nth_error (PR_30avg chart) i = Some None) \/
  ((29 <= i)%nat /\
   exists q, nth_error (PR_30avg chart) i = Some (Some q) /\
             (q == mean_of_rows (map PR (rows chart)) (i - 29) 30)%Q).
Proof.
  intros Hrun Hi.
  apply plotter_Plotted in Hrun. destruct Hrun as [_ Hchart].
  subst chart. simpl in *.
  set (pr := map PR (fetchCsvData startDate endDate file)).
  assert (Hlen : (i < List.length pr)%nat)
    by (unfold pr; now rewrite length_map).
  destruct (rolling_mean_spec 30 pr i ltac:(lia) Hlen)
    as [[Hlt Hnone]|[Hge [q [Hsome Hq]]]].
  - left. split; [lia | exact Hnone].
  - right. split; [lia|]. exists q. split; [exact Hsome|].
    replace (i - 29)%nat with (i + 1 - 30)%nat by lia. exact Hq.
Qed.

Example PR_30avg_sample :
  exists chart name,
    plotter None None sample_month = Plotted chart name /\
    List.length (PR_30avg chart) = 31%nat /\
    nth_error (PR_30avg chart) 0 = Some None /\
    nth_error (PR_30avg chart) 28 = Some None /\
    option_map (option_map Qred) (nth_error (PR_30avg chart) 29)
      = Some (Some (31 # 2)) /\
    option_map (option_map Qred) (nth_error (PR_30avg chart) 30)
      = Some (Some (33 # 2)).
Proof. do 2 eexists. split; [reflexivity|]. vm_compute. repeat split. Qed.

Lemma PR_30avg_rolling_witness :
  exists chart name,
    plotter None None sample_month = Plotted chart name /\
    (30 < List.length (rows chart))%nat /\
    exists q, nth_error (PR_30avg chart) 30 = Some (Some q) /\
              (q == mean_of_rows (map PR (rows chart)) 1 30)%Q.
Proof.
  do 2 eexists. split; [reflexivity|].
  split; [vm_compute; lia|].
  destruct (PR_30avg_rolling None None sample_month _ _ 30 eq_refl)
    as [[Hlt _]|[_ Hq]].
  - vm_compute. lia.
  - lia.
  - exact Hq.
Defined.

(** ** Trailing-window averages *)

Lemma range_sum_shift (x : Q) (t : list Q) (lo n : nat) :
  range_sum (x :: t) (S lo) n = range_sum t lo n.
Proof.
  unfold range_sum. rewrite <- seq_shift, map_map. reflexivity.
Qed.

Lemma Qsum_skipn (l : list Q) (m : nat) :
  (Qsum (skipn m l) == range_sum l m (List.length l - m))%Q.
Proof.
  revert m. induction l as [|x t IH]; intros m.
  - rewrite skipn_nil. reflexivity.
  - destruct m as [|m].
    + change (skipn 0 (x :: t)) with (x :: skipn 0 t).
      change (List.length (x :: t) - 0)%nat with (S (List.length t)).
      rewrite range_sum_cons, range_sum_shift. simpl Qsum.
      rewrite (IH 0%nat), Nat.sub_0_r. reflexivity.
    + change (skipn (S m) (x :: t)) with (skipn m t).
      change (List.length (x :: t) - S m)%nat with (List.length t - m)%nat.
      rewrite range_sum_shift. apply IH.
Qed.

Lemma tail_length {A : Type} (k : nat) (l : list A) :
  List.length (tail k l) = Nat.min k (List.length l).
Proof.
  unfold tail. destruct (Nat.eqb_spec k 0) as [->|Hk].
  - reflexivity.
  - rewrite length_skipn. lia.
Qed.

Lemma mean_tail (k : nat) (pr : list Q) :
  (0 < k)%nat -> pr <> [] ->
  exists q, mean (tail k pr) = Some q /\
            (q == mean_of_rows pr (List.length pr - Nat.min k (List.length pr))
                               (Nat.min k (List.length pr)))%Q.
Proof.
  intros Hk Hne.
  assert (Hn : (0 < List.length pr)%nat)
    by (destruct pr; [congruence | simpl; lia]).
  pose proof (tail_length k pr) as Hlen.
  unfold mean. destruct (tail k pr) as [|y t] eqn:Ht.
  - simpl in Hlen. lia.
  - eexists. split; [reflexivity|].
    rewrite Hlen, <- Ht. unfold mean_of_rows, tail.
    destruct (Nat.eqb_spec k 0) as [->|_]; [lia|].
    rewrite Qsum_skipn.
    replace (List.length pr - Nat.min k (List.length pr))%nat
      with (List.length pr - k)%nat by lia.
    replace (List.length pr - (List.length pr - k))%nat
      with (Nat.min k (List.length pr)) by lia.
    reflexivity.
Qed.

Lemma mean_all (pr : list Q) :
  pr <> [] ->
  exists q, mean pr = Some q /\ (q == mean_of_rows pr 0 (List.length pr))%Q.
Proof.
  intros Hne. destruct pr as [|y t] eqn:E; [congruence|].
  eexists. split; [reflexivity|].
  rewrite <- E. unfold mean_of_rows.
  rewrite <- (Nat.sub_0_r (List.length pr)) at 2.
  rewrite <- Qsum_skipn. reflexivity.
Qed.

(** C9. For a selected series of n rows and k in 7, 30, 60, 90, 365, the
    k-window average is the mean of the last min(k, n) rows (all rows when
    n < k, never an error), and the lifetime average is the mean of all n
    rows. *)
Theorem trailing_averages (startDate endDate : option Timestamp)
        (file : list CombinedRow) (chart : Chart)
        (name : Timestamp * Timestamp) :
  plotter startDate endDate file = Plotted chart name ->
  let pr := map PR (rows chart) in
  let n := List.length pr in
  (0 < n)%nat /\
  (forall k avg,
     In (k, avg) [(7%nat, avg_pr_7d chart); (30%nat, avg_pr_30d chart);
                  (60%nat, avg_pr_60d chart); (90%nat, avg_pr_90d chart);
                  (365%nat, avg_pr_365d chart)] ->
     exists q, avg = Some q /\
               (q == mean_of_rows pr (n - Nat.min k n) (Nat.min k n))%Q) /\
  (exists q, avg_pr_lifetime chart = Some q /\ (q == mean_of_rows pr 0 n)%Q).
Proof.
  intros Hrun.
  apply plotter_Plotted in Hrun. destruct Hrun as [Hne Hchart].
  subst chart. cbn [rows avg_pr_7d avg_pr_30d avg_pr_60d avg_pr_90d
                    avg_pr_365d avg_pr_lifetime].
  set (pr := map PR (fetchCsvData startDate endDate file)).
  assert (Hpr : pr <> []).
  { unfold pr. destruct (fetchCsvData startDate endDate file);
      [congruence | discriminate]. }
  split; [destruct pr; [congruence | simpl; lia]|].
  split.
  - intros k avg Hin. simpl in Hin.
    repeat (destruct Hin as [Hin|Hin];
            [inversion Hin; subst; apply mean_tail; [lia | exact Hpr]|]).
    contradiction.
  - now apply mean_all.
Qed.

Example trailing_averages_sample :
  exists chart name,
    plotter None None sample_month = Plotted chart name /\
    option_map Qred (avg_pr_7d chart) = Some 28%Q /\
    option_map Qred (avg_pr_30d chart) = Some (33 # 2) /\
    option_map Qred (avg_pr_60d chart) = Some 16%Q /\
    option_map Qred (avg_pr_365d chart) = Some 16%Q /\
    option_map Qred (avg_pr_lifetime chart) = Some 16%Q.
Proof. do 2 eexists. split; [reflexivity|]. vm_compute. repeat split. Qed.

Lemma trailing_averages_witness :
  exists chart name,
    plotter (Some (jan 1)) (Some (jan 3)) sample_file = Plotted chart name /\
    exists q, avg_pr_7d chart = Some q /\
              (q == mean_of_rows (map PR (rows chart)) 0 3)%Q.
Proof.
  do 2 eexists. split; [reflexivity|].
  destruct (trailing_averages (Some (jan 1)) (Some (jan 3)) sample_file
                              _ _ eq_refl) as [_ [Hk _]].
  apply (Hk 7%nat). left. reflexivity.
Defined.

(** ** Record loader *)

Lemma Dir_forall_ind (P : Dir -> Prop) :
  (forall files subDir, Forall P subDir -> P (MkDir files subDir)) ->
  forall d, P d.
Proof.
  intros step. fix IH 1. intros [files subDir].
  apply step. induction subDir as [|d t IHt]; constructor.
  - apply IH.
  - exact IHt.
Qed.

Lemma filter_flat_map {X Y : Type} (p : Y -> bool) (f : X -> list Y)
      (l : list X) :
  filter p (flat_map f l) = flat_map (fun x => filter p (f x)) l.
Proof.
  induction l as [|x t IH]; simpl.
  - reflexivity.
  - now rewrite filter_app, IH.
Qed.

Lemma filter_idem {X : Type} (p : X -> bool) (l : list X) :
  filter p (filter p l) = filter p l.
Proof.
  induction l as [|x t IH]; simpl.
  - reflexivity.
  - destruct (p x) eqn:E; simpl; [rewrite E|]; now rewrite ?IH.
Qed.

Lemma os_walk_prune (d : Dir) :
  os_walk (prune d) = filter is_csv (os_walk d).
Proof.
  induction d as [files subDir IH] using Dir_forall_ind. simpl.
  rewrite filter_app, filter_flat_map. f_equal.
  induction IH as [|x t Hx _ IHt]; simpl.
  - reflexivity.
  - now rewrite Hx, IHt.
Qed.

Section LoaderFacts.
Variable to_datetime : string -> option Timestamp.

Lemma column_index_None (col : string) (cols : list string) :
  column_index col cols = None <->
  existsb (fun c => String.eqb c col) cols = false.
Proof.
  induction cols as [|c t IH]; simpl.
  - tauto.
  - destruct (String.eqb c col); simpl.
    + split; discriminate.
    + destruct (column_index col t); simpl in *.
      * split; [discriminate|]. intros H. apply IH in H. discriminate.
      * split; [|reflexivity]. intros _. now apply IH.
Qed.

Lemma convert_dates_err (cols : list string) (i : nat)
      (lines : list (list string)) :
  is_err (convert_dates to_datetime cols i lines)
  = existsb (fun line => match to_datetime (nth i line EmptyString) with
                         | Some _ => false
                         | None => true
                         end) lines.
Proof.
  induction lines as [|line rest IH]; simpl.
  - reflexivity.
  - destruct (to_datetime (nth i line EmptyString)); simpl.
    + rewrite <- IH.
      destruct (convert_dates to_datetime cols i rest); reflexivity.
    + reflexivity.
Qed.

(** A file makes [csvWalker] raise exactly when it cannot be read, has no
    ['Date'] column, or holds a date that does not parse. *)
Lemma load_csv_err (file : File) :
  is_err (load_csv to_datetime file) = load_fails to_datetime file.
Proof.
  unfold load_fails, load_csv, read_csv, unreadable, lacks_column,
    has_bad_date.
  destruct (content file) as [t|]; simpl; [|reflexivity].
  destruct (column_index "Date" (header t)) as [i|] eqn:E.
  - rewrite convert_dates_err.
    destruct (existsb (fun c => String.eqb c "Date") (header t)) eqn:E';
      [reflexivity|].
    apply column_index_None in E'. congruence.
  - apply column_index_None in E. rewrite E. reflexivity.
Qed.

Lemma walk_loop_filter (todo : list File) (csvData : list Frame)
      (seen : list File) :
  walk_loop to_datetime todo csvData seen
  = walk_loop to_datetime (filter is_csv todo) csvData seen.
Proof.
  revert csvData seen. induction todo as [|file rest IH]; intros; simpl.
  - reflexivity.
  - destruct (is_csv file) eqn:E; simpl.
    + rewrite E. destruct (load_csv to_datetime file); [apply IH | reflexivity].
    + apply IH.
Qed.

(** The files read so far are a prefix of the [.csv] files of the walk; the
    loop ends in an exception exactly when one of them fails to load, and
    otherwise it has collected one frame for each. *)
Lemma walk_loop_spec (todo : list File) (csvData : list Frame)
      (seen : list File) :
  exists read skipped,
    filter is_csv todo = read ++ skipped /\
    fst (walk_loop to_datetime todo csvData seen) = seen ++ read /\
    (existsb (load_fails to_datetime) (filter is_csv todo) = false -> skipped = []) /\
    match snd (walk_loop to_datetime todo csvData seen) with
    | Ok frames =>
        existsb (load_fails to_datetime) (filter is_csv todo) = false /\
        exists new, frames = csvData ++ new /\
                    List.length new = List.length (filter is_csv todo)
    | Err _ => existsb (load_fails to_datetime) (filter is_csv todo) = true
    end.
Proof.
  revert csvData seen. induction todo as [|file rest IH]; intros; simpl.
  - exists [], [].
    split; [reflexivity|]. split; [now rewrite app_nil_r|].
    do 2 (split; [reflexivity|]).
    exists []. now rewrite app_nil_r.
  - destruct (is_csv file) eqn:E; [|apply IH].
    simpl. rewrite <- load_csv_err.
    destruct (load_csv to_datetime file) as [tempDf|err] eqn:L; simpl.
    + destruct (IH (csvData ++ [tempDf]) (seen ++ [file]))
        as [read [skipped [Hsplit [Hseen [Hnone Hres]]]]].
      exists (file :: read), skipped.
      split; [simpl; now rewrite Hsplit|].
      split; [rewrite Hseen, <- app_assoc; reflexivity|].
      split; [exact Hnone|].
      destruct (snd (walk_loop to_datetime rest (csvData ++ [tempDf])
                               (seen ++ [file]))); [|exact Hres].
      destruct Hres as [Hok [new [Hframes Hlen]]].
      split; [exact Hok|]. exists (tempDf :: new).
      rewrite Hframes, <- app_assoc. simpl.
      split; [reflexivity | now rewrite Hlen].
    + exists [file], (filter is_csv rest).
      do 2 (split; [reflexivity|]). split; [discriminate | reflexivity].
Qed.

Lemma csvWalker_err (dir : Dir) :
  is_err (csvWalker to_datetime dir)
  = existsb (load_fails to_datetime) (filter is_csv (os_walk dir))
    || (List.length (filter is_csv (os_walk dir)) =? 0)%nat.
Proof.
  unfold csvWalker, csvWalker_run.
  destruct (walk_loop_spec (os_walk dir) [] [])
    as [read [skipped [_ [_ [_ Hres]]]]].
  destruct (walk_loop to_datetime (os_walk dir) [] []) as [seen r].
  simpl in *. destruct r as [frames|err]; simpl.
  - destruct Hres as [Hok [new [Hframes Hlen]]]. rewrite Hok, <- Hlen.
    simpl in Hframes. subst frames. destruct new; reflexivity.
  - now rewrite Hres.
Qed.
End LoaderFacts.

(** C8, as the code has it. [csvWalker] raises, and with it the whole run,
    exactly when a [.csv] file cannot be read, has no ['Date'] column or holds
    an unparseable date, or when the tree has no [.csv] file at all; the
    value column and the number of rows play no part. *)
Theorem csvWalker_failure (to_datetime : string -> option Timestamp)
        (dir : Dir) :
  is_err (csvWalker to_datetime dir)
  = existsb (fun file => unreadable file || lacks_column "Date" file
                         || has_bad_date to_datetime file)
            (filter is_csv (os_walk dir))
    || (List.length (filter is_csv (os_walk dir)) =? 0)%nat /\
  (is_err (csvWalker to_datetime dir) = true ->
   forall other,
     is_err (preprocessing to_datetime dir other) = true /\
     is_err (preprocessing to_datetime other dir) = true).
Proof.
  split; [apply csvWalker_err|].
  intros Herr other. unfold preprocessing.
  destruct (csvWalker to_datetime dir); [discriminate Herr|].
  split; [reflexivity|].
  destruct (csvWalker to_datetime other); reflexivity.
Qed.

Lemma csvWalker_failure_witness :
  is_err (csvWalker ymd no_csv_dir) = true /\
  is_err (preprocessing ymd no_csv_dir pr_dir) = true /\
  is_err (preprocessing ymd ghi_dir no_csv_dir) = true.
Proof.
  split; [reflexivity|].
  destruct (csvWalker_failure ymd no_csv_dir) as [_ H].
  split.
  - apply (H eq_refl pr_dir).
  - apply (H eq_refl ghi_dir).
Defined.

(** The loader accepts a file without its value column, and a file without
    rows, where the specification asks for a failure; the merge is then
    empty without any error. *)
Lemma csvWalker_accepts_spec_failures :
  spec_must_fail ymd "GHI" ghi_no_value = true /\
  csvWalker ymd ghi_no_value = Ok [(jan 1, [])] /\
  spec_must_fail ymd "GHI" ghi_header_only = true /\
  csvWalker ymd ghi_header_only = Ok [] /\
  preprocessing ymd ghi_header_only pr_dir = Ok [].
Proof. repeat split. Qed.

Example preprocessing_sample :
  preprocessing ymd ghi_dir pr_dir
  = Ok [(jan 1, ([("GHI", "1")], [("PR", "75")]));
        (jan 2, ([("GHI", "3")], [("PR", "80")]))]%string.
Proof. reflexivity. Qed.

Lemma csvWalker_run_fst (to_datetime : string -> option Timestamp)
      (dir : Dir) :
  fst (csvWalker_run to_datetime dir)
  = fst (walk_loop to_datetime (os_walk dir) [] []).
Proof.
  unfold csvWalker_run.
  now destruct (walk_loop to_datetime (os_walk dir) [] []).
Qed.

(** C10. The loop hands a file to the parser exactly when its name ends in
    [.csv]: the files read are the [.csv] files of the walk, in order (up to
    the first one that raises); any other file changes nothing, and a tree
    with no [.csv] name behaves as an empty directory. *)
Theorem csvWalker_csv_only (to_datetime : string -> option Timestamp)
        (dir : Dir) :
  (exists skipped,
     filter is_csv (os_walk dir)
     = fst (csvWalker_run to_datetime dir) ++ skipped /\
     (existsb (load_fails to_datetime) (filter is_csv (os_walk dir)) = false ->
      skipped = [])) /\
  (forall file, In file (fst (csvWalker_run to_datetime dir)) ->
                In file (os_walk dir) /\ endswith (fname file) ".csv" = true) /\
  (existsb (load_fails to_datetime) (filter is_csv (os_walk dir)) = false ->
   forall file, In file (fst (csvWalker_run to_datetime dir)) <->
                In file (os_walk dir) /\ endswith (fname file) ".csv" = true) /\
  csvWalker_run to_datetime dir = csvWalker_run to_datetime (prune dir) /\
  ((forall file, In file (os_walk dir) -> endswith (fname file) ".csv" = false) ->
   csvWalker_run to_datetime dir = csvWalker_run to_datetime (MkDir [] []) /\
   csvWalker to_datetime dir = Err NoObjectsToConcatenate).
Proof.
  destruct (walk_loop_spec to_datetime (os_walk dir) [] [])
    as [read [skipped [Hsplit [Hseen [Hnone _]]]]].
  simpl in Hseen. rewrite <- csvWalker_run_fst in Hseen.
  rewrite Hseen.
  assert (Hread : forall file, In file read ->
            In file (os_walk dir) /\ endswith (fname file) ".csv" = true).
  { intros file Hin. apply (filter_In is_csv). rewrite Hsplit.
    apply in_or_app. now left. }
  split; [exists skipped; auto|].
  split; [exact Hread|].
  split.
  { intros Hok file. split; [apply Hread|].
    intros Hin. apply (filter_In is_csv) in Hin.
    rewrite Hsplit, (Hnone Hok), app_nil_r in Hin. exact Hin. }
  split.
  { unfold csvWalker_run. rewrite os_walk_prune.
    now rewrite <- walk_loop_filter. }
  intros Hnocsv.
  assert (Hnil : filter is_csv (os_walk dir) = []).
  { destruct (filter is_csv (os_walk dir)) as [|file rest] eqn:F;
      [reflexivity|].
    assert (Hin : In file (filter is_csv (os_walk dir)))
      by (rewrite F; now left).
    apply filter_In in Hin. destruct Hin as [Hin Hcsv].
    unfold is_csv in Hcsv. rewrite (Hnocsv file Hin) in Hcsv. discriminate. }
  assert (Hrun : csvWalker_run to_datetime dir
                 = csvWalker_run to_datetime (MkDir [] [])).
  { unfold csvWalker_run. rewrite walk_loop_filter, Hnil. reflexivity. }
  split; [exact Hrun|].
  unfold csvWalker. rewrite Hrun. reflexivity.
Qed.

Example csvWalker_run_sample :
  map fname (fst (csvWalker_run ymd ghi_dir))
  = ["2021-01.csv"; "later.csv"]%string /\
  map fname (os_walk ghi_dir)
  = ["readme.txt"; "2021-01.csv"; "2021-01.csv.bak"; "later.csv"]%string.
Proof. split; reflexivity. Qed.

Lemma csvWalker_csv_only_witness :
  (existsb (load_fails ymd) (filter is_csv (os_walk ghi_dir)) = false /\
   forall file, In file (fst (csvWalker_run ymd ghi_dir)) <->
                In file (os_walk ghi_dir) /\
                endswith (fname file) ".csv" = true) /\
  (forall file, In file (os_walk no_csv_dir) ->
                endswith (fname file) ".csv" = false) /\
  csvWalker_run ymd no_csv_dir = csvWalker_run ymd (MkDir [] []) /\
  csvWalker ymd no_csv_dir = Err NoObjectsToConcatenate.
Proof.
  split.
  { split; [reflexivity|].
    destruct (csvWalker_csv_only ymd ghi_dir) as [_ [_ [Hiff _]]].
    exact (Hiff eq_refl). }
  assert (H : forall file, In file (os_walk no_csv_dir) ->
                           endswith (fname file) ".csv" = false).
  { simpl. intros file [<-|[<-|[]]]; reflexivity. }
  split; [exact H|].
  destruct (csvWalker_csv_only ymd no_csv_dir) as [_ [_ [_ [_ Hno]]]].
  exact (Hno H).
Defined.

(* ================================================================= *)
(** * Part III: further properties of the code *)
(* ================================================================= *)

(** ** More on [sort_values] and [fetchCsvData] *)


Lemma filter_all {A : Type} (p : A -> bool) (l : list A) :
  (forall x, In x l -> p x = true) -> filter p l = l.
Proof.
  induction l as [|x t IH]; simpl; intros H.
  - reflexivity.
  - rewrite (H x (or_introl eq_refl)). f_equal. apply IH.
    intros y Hy. apply H. now right.
Qed.

Lemma filter_none {A : Type} (p : A -> bool) (l : list A) :
  (forall x, In x l -> p x = false) -> filter p l = [].
Proof.
  induction l as [|x t IH]; simpl; intros H.
  - reflexivity.
  - rewrite (H x (or_introl eq_refl)). apply IH.
    intros y Hy. apply H. now right.
Qed.

(** X1. With both bounds, the selection holds exactly the rows of the file
    dated within the bounds (both inclusive, each as often as in the file),
    in date order. *)
Theorem fetchCsvData_bounded (file : list CombinedRow) (s e : Timestamp) :
  Permutation
    (filter (fun r => date_leb s (Date r) && date_leb (Date r) e) file)
    (fetchCsvData (Some s) (Some e) file) /\
  StronglySorted (key_le Date) (fetchCsvData (Some s) (Some e) file) /\
  (forall row, In row (fetchCsvData (Some s) (Some e) file) <->
               In row file /\ date_le s (Date row) /\ date_le (Date row) e).
Proof.
  split; [apply sort_values_perm|].
  split; [apply sort_values_sorted|].
  apply fetchCsvData_window.
Qed.


(** X3. A range whose end lies before its start selects no row, whatever
    the file holds, and [plotter] answers with its diagnostic. *)
Theorem plotter_inverted_range (file : list CombinedRow) (s e : Timestamp) :
  date_leb s e = false ->
  fetchCsvData (Some s) (Some e) file = [] /\
  plotter (Some s) (Some e) file = NoData "No Data for the given Date Range!".
Proof.
  intros Hinv.
  assert (Hsel : fetchCsvData (Some s) (Some e) file = []).
  { unfold fetchCsvData. rewrite filter_none; [reflexivity|].
    intros r _. destruct (date_leb s (Date r)) eqn:H1; [|reflexivity].
    destruct (date_leb (Date r) e) eqn:H2; [|reflexivity].
    rewrite (date_leb_trans _ _ _ H1 H2) in Hinv. discriminate. }
  split; [exact Hsel|].
  unfold plotter. rewrite Hsel. reflexivity.
Qed.

Lemma plotter_inverted_range_witness :
  date_leb (jan 3) (jan 1) = false /\
  plotter (Some (jan 3)) (Some (jan 1)) sample_file
  = NoData "No Data for the given Date Range!".
Proof.
  split; [reflexivity|].
  apply (plotter_inverted_range sample_file (jan 3) (jan 1)). reflexivity.
Defined.

(** ** How a run of [plotter] ends *)








(** X7. In a plotted chart every column drawn against the dates has one
    entry per row: the rolling average, the budget and the colours are as
    long as the selection, and [totalPoints] is that length, never zero. *)
Theorem chart_columns (startDate endDate : option Timestamp)
        (file : list CombinedRow) (chart : Chart)
        (name : Timestamp * Timestamp) :
  plotter startDate endDate file = Plotted chart name ->
  List.length (PR_30avg chart) = List.length (rows chart) /\
  List.length (Budget chart) = List.length (rows chart) /\
  List.length (colors chart) = List.length (rows chart) /\
  totalPoints chart = List.length (rows chart) /\
  (0 < totalPoints chart)%nat /\
  (pointsAboveBudget chart <= totalPoints chart)%nat.
Proof.
  intros Hrun. apply plotter_Plotted in Hrun. destruct Hrun as [Hne Hchart].
  subst chart. simpl.
  rewrite rolling_mean_length, budgetValues_map, !length_map.
  repeat split.
  - destruct (fetchCsvData startDate endDate file); [congruence | simpl; lia].
  - unfold count_above.
    etransitivity; [apply filter_length_le|].
    rewrite length_combine, !length_map. lia.
Qed.

Lemma chart_columns_witness :
  exists chart name,
    plotter None None sample_month = Plotted chart name /\
    List.length (PR_30avg chart) = List.length (rows chart) /\
    List.length (Budget chart) = List.length (rows chart).
Proof.
  do 2 eexists. split; [reflexivity|].
  destruct (chart_columns None None sample_month _ _ eq_refl)
    as [H1 [H2 _]].
  split; [exact H1 | exact H2].
Defined.

(** ** Classifier *)

(** X8. The bands follow the irradiation: a value that is not smaller never
    gets a lower band, and equal values get the same colour. *)
Theorem color_of_monotone (ghi1 ghi2 : Q) (c1 c2 : Color) :
  (ghi1 <= ghi2)%Q ->
  color_of ghi1 = Some c1 -> color_of ghi2 = Some c2 ->
  (band c1 <= band c2)%nat /\ ((ghi1 == ghi2)%Q -> c1 = c2).
Proof.
  intros Hle H1 H2.
  destruct (color_of_cases ghi1)
    as [[A1 E1]|[[A1 [B1 E1]]|[[A1 [B1 E1]]|[A1 E1]]]];
    destruct (color_of_cases ghi2)
      as [[A2 E2]|[[A2 [B2 E2]]|[[A2 [B2 E2]]|[A2 E2]]]];
    rewrite E1 in H1; rewrite E2 in H2;
    inversion H1; inversion H2; subst; simpl;
    (split; [try lia; exfalso; lra | intros Heq; try reflexivity; exfalso; lra]).
Qed.

Lemma color_of_monotone_witness :
  (2 <= 5)%Q /\ (band navy <= band orange)%nat.
Proof.
  assert (H : (2 <= 5)%Q) by discriminate.
  split; [exact H|].
  apply (color_of_monotone 2 5 navy orange H eq_refl eq_refl).
Defined.

(** ** Budget model *)

Lemma month_step (m : Z) :
  -11 <= m <= 11 -> m / 12 = if m <? 0 then -1 else 0.
Proof.
  intros Hm. destruct (Z.ltb_spec m 0) as [Hneg|Hpos].
  - symmetry. apply (Z.div_unique m 12 (-1) (m + 12)); lia.
  - apply Z.div_small. lia.
Qed.

(** X9. Only years and months count towards the elapsed years, never the
    day: the count is the difference of the years, less one when the row's
    month comes before the start's month. *)
Theorem elapsed_years_closed_form (date startDate : Timestamp) :
  1 <= month date <= 12 -> 1 <= month startDate <= 12 ->
  elapsed_years date startDate
  = year date - year startDate
    - (if month date <? month startDate then 1 else 0).
Proof.
  intros Hd Hs. unfold elapsed_years.
  rewrite month_step by lia.
  destruct (Z.ltb_spec (month date - month startDate) 0);
    destruct (Z.ltb_spec (month date) (month startDate)); lia.
Qed.

Lemma elapsed_years_closed_form_witness :
  (1 <= 3 <= 12) /\
  elapsed_years (mkDate 2022 3 1) (mkDate 2021 3 31) = 1 /\
  elapsed_years (mkDate 2022 2 28) (mkDate 2021 3 1) = 0.
Proof.
  assert (H2 : 1 <= 2 <= 12) by lia.
  assert (H3 : 1 <= 3 <= 12) by lia.
  split; [exact H3|]. split.
  - rewrite (elapsed_years_closed_form (mkDate 2022 3 1) (mkDate 2021 3 31)
                                       H3 H3).
    reflexivity.
  - rewrite (elapsed_years_closed_form (mkDate 2022 2 28) (mkDate 2021 3 1)
                                       H2 H3).
    reflexivity.
Defined.

Lemma rate_bounds : (0 < 1 - reduceRate /\ 1 - reduceRate <= 1)%Q.
Proof. split; [reflexivity | discriminate]. Qed.

Lemma rate_nonzero : ~ (1 - reduceRate == 0)%Q.
Proof. discriminate. Qed.

Lemma Qpower_succ (r : Q) (n : Z) :
  ~ (r == 0)%Q -> (r ^ (n + 1) == r * r ^ n)%Q.
Proof.
  intros Hr. rewrite (Qpower_plus r n 1 Hr), Qpower_1_r. ring.
Qed.

Lemma Qpower_le_1 (r : Q) (k : Z) :
  (0 < r)%Q -> (r <= 1)%Q -> 0 <= k -> (r ^ k <= 1)%Q.
Proof.
  intros Hpos Hle Hk. revert k Hk.
  apply natlike_ind.
  - rewrite Qpower_0_r. apply Qle_refl.
  - intros k Hk IH. unfold Z.succ.
    rewrite Qpower_succ by (intros E; rewrite E in Hpos; discriminate).
    pose proof (Qpower_0_lt r k Hpos) as Hk0.
    nra.
Qed.

Lemma Qpower_antitone (r : Q) (n m : Z) :
  (0 < r)%Q -> (r <= 1)%Q -> n <= m -> (r ^ m <= r ^ n)%Q.
Proof.
  intros Hpos Hle Hnm.
  assert (Hr : ~ (r == 0)%Q) by (intros E; rewrite E in Hpos; discriminate).
  replace m with (n + (m - n)) by lia.
  rewrite (Qpower_plus r n (m - n) Hr).
  pose proof (Qpower_0_lt r n Hpos) as Hn.
  pose proof (Qpower_le_1 r (m - n) Hpos Hle ltac:(lia)) as H1.
  pose proof (Qpower_0_lt r (m - n) Hpos) as H0.
  nra.
Qed.

Lemma budget_at_pos (d s : Timestamp) : (0 < budget_at d s)%Q.
Proof.
  unfold budget_at.
  pose proof (Qpower_0_lt (1 - reduceRate) (elapsed_years d s)
                          (proj1 rate_bounds)) as H.
  assert (0 < initialBudget)%Q by reflexivity.
  nra.
Qed.

Lemma budget_at_antitone (d1 d2 s : Timestamp) :
  elapsed_years d1 s <= elapsed_years d2 s ->
  (budget_at d2 s <= budget_at d1 s)%Q.
Proof.
  intros H. unfold budget_at.
  destruct rate_bounds as [Hpos Hle].
  pose proof (Qpower_antitone (1 - reduceRate) _ _ Hpos Hle H) as Hp.
  assert (0 < initialBudget)%Q by reflexivity.
  nra.
Qed.

Lemma budget_at_le_initial (d s : Timestamp) :
  0 <= elapsed_years d s -> (budget_at d s <= initialBudget)%Q.
Proof.
  intros H. unfold budget_at.
  destruct rate_bounds as [Hpos Hle].
  pose proof (Qpower_le_1 (1 - reduceRate) _ Hpos Hle H) as Hp.
  assert (0 < initialBudget)%Q by reflexivity.
  nra.
Qed.

(** X10. The budget is 73.9 at the start date and wherever no year has
    elapsed, is multiplied by 0.992 with each further elapsed year, never
    rises as the elapsed years grow, and stays positive. *)
Theorem budget_at_decay (d1 d2 s : Timestamp) :
  (budget_at s s == 739 # 10)%Q /\
  (elapsed_years d1 s = 0 -> (budget_at d1 s == 739 # 10)%Q) /\
  (elapsed_years d2 s = elapsed_years d1 s + 1 ->
   (budget_at d2 s == (992 # 1000) * budget_at d1 s)%Q) /\
  (elapsed_years d1 s <= elapsed_years d2 s ->
   (budget_at d2 s <= budget_at d1 s)%Q) /\
  (0 < budget_at d1 s)%Q.
Proof.
  assert (Hzero : forall d, elapsed_years d s = 0 ->
                            (budget_at d s == 739 # 10)%Q).
  { intros d E. unfold budget_at. rewrite E, Qpower_0_r.
    unfold initialBudget. ring. }
  split.
  { apply Hzero. unfold elapsed_years.
    rewrite !Z.sub_diag. reflexivity. }
  split; [apply Hzero|].
  split.
  { intros E. unfold budget_at.
    rewrite E, (Qpower_succ _ _ rate_nonzero).
    unfold reduceRate. ring. }
  split; [apply budget_at_antitone | apply budget_at_pos].
Qed.

Lemma budget_at_decay_witness :
  elapsed_years (mkDate 2022 3 1) (mkDate 2021 3 5)
  = elapsed_years (mkDate 2021 3 5) (mkDate 2021 3 5) + 1 /\
  (budget_at (mkDate 2022 3 1) (mkDate 2021 3 5)
   == (992 # 1000) * budget_at (mkDate 2021 3 5) (mkDate 2021 3 5))%Q.
Proof.
  assert (E : elapsed_years (mkDate 2022 3 1) (mkDate 2021 3 5)
              = elapsed_years (mkDate 2021 3 5) (mkDate 2021 3 5) + 1)
    by reflexivity.
  split; [exact E|].
  destruct (budget_at_decay (mkDate 2021 3 5) (mkDate 2022 3 1)
                            (mkDate 2021 3 5)) as [_ [_ [H _]]].
  exact (H E).
Defined.

Lemma budgetValues_range (csvData : list CombinedRow) (s : Timestamp) :
  valid_date s ->
  (forall r, In r csvData -> valid_date (Date r) /\ date_le s (Date r)) ->
  Forall (fun b => 0 < b /\ b <= 739 # 10)%Q (budgetValues csvData s).
Proof.
  intros Hs Hrows. rewrite budgetValues_map.
  apply Forall_map, Forall_forall. intros r Hr.
  destruct (Hrows r Hr) as [Hv Hle].
  split; [apply budget_at_pos|].
  apply budget_at_le_initial. now apply elapsed_years_nonneg.
Qed.

Lemma plotter_no_bounds_start (file : list CombinedRow) (chart : Chart)
      (name : Timestamp * Timestamp) :
  plotter None None file = Plotted chart name ->
  exists first rest, file = first :: rest /\ fst name = Date first.
Proof.
  unfold plotter, default_range. intros H.
  destruct (fetchCsvData None None file) as [|r0 t]; [discriminate H|].
  simpl in H. destruct file as [|first rest]; [discriminate H|].
  simpl in H. destruct (iloc_last (r0 :: t)); [|discriminate H].
  inversion H; subst. exists first, rest. auto.
Qed.

Lemma plotter_both_bounds_name (file : list CombinedRow) (s e : Timestamp)
      (chart : Chart) (name : Timestamp * Timestamp) :
  plotter (Some s) (Some e) file = Plotted chart name -> fst name = s.
Proof.
  unfold plotter. intros H.
  destruct (fetchCsvData (Some s) (Some e) file); [discriminate H|].
  simpl in H. inversion H. reflexivity.
Qed.

(** X11. When all dates are calendar dates, no budget drawn exceeds 73.9 or
    drops to zero: in a run with both bounds, and in a run without bounds on
    a file kept in date order (as [preprocessing] writes it). *)
Theorem chart_budget_range (file : list CombinedRow) :
  (forall r, In r file -> valid_date (Date r)) ->
  (forall s e chart name,
     valid_date s ->
     plotter (Some s) (Some e) file = Plotted chart name ->
     Forall (fun b => 0 < b /\ b <= 739 # 10)%Q (Budget chart)) /\
  (forall chart name,
     StronglySorted (key_le Date) file ->
     plotter None None file = Plotted chart name ->
     Forall (fun b => 0 < b /\ b <= 739 # 10)%Q (Budget chart)).
Proof.
  intros Hvalid. split.
  - intros s e chart name Hs Hrun.
    destruct (plotter_both_bounds_name file s e chart name Hrun).
    apply plotter_Plotted in Hrun. destruct Hrun as [_ ->]. simpl.
    apply budgetValues_range; [exact Hs|].
    intros r Hr. apply fetchCsvData_window in Hr.
    destruct Hr as [Hin [Hle _]]. auto.
  - intros chart name Hsorted Hrun.
    destruct (plotter_no_bounds_start file chart name Hrun)
      as [first [rest [Hfile Hname]]].
    apply plotter_Plotted in Hrun. destruct Hrun as [_ ->]. simpl.
    rewrite Hname. subst file.
    apply StronglySorted_inv in Hsorted. destruct Hsorted as [_ Hall].
    rewrite Forall_forall in Hall.
    apply budgetValues_range; [apply Hvalid; now left|].
    intros r Hr. unfold fetchCsvData in Hr. apply sort_values_In in Hr.
    split; [now apply Hvalid|].
    destruct Hr as [<-|Hr]; [apply date_leb_refl | now apply Hall].
Qed.

Lemma chart_budget_range_witness :
  (forall r, In r sample_file -> valid_date (Date r)) /\
  exists chart name,
    plotter (Some (jan 1)) (Some (jan 3)) sample_file = Plotted chart name /\
    Forall (fun b => 0 < b /\ b <= 739 # 10)%Q (Budget chart).
Proof.
  assert (Hv : forall r, In r sample_file -> valid_date (Date r)).
  { simpl. intros r [<-|[<-|[<-|[]]]]; unfold valid_date; simpl; lia. }
  split; [exact Hv|].
  do 2 eexists. split; [reflexivity|].
  destruct (chart_budget_range sample_file Hv) as [H _].
  apply (H (jan 1) (jan 3) _ (jan 1, jan 3));
    [unfold valid_date; simpl; lia | reflexivity].
Defined.

(** ** Compliance counter *)

Lemma Qnat_inj (n m : nat) : (Qnat n == Qnat m)%Q -> n = m.
Proof.
  unfold Qnat. intros H. rewrite inject_Z_injective in H. lia.
Qed.

Lemma percentage_full (points total : nat) :
  (0 < total)%nat ->
  ((percentage points total == 100)%Q <-> points = total).
Proof.
  intros Hpos. pose proof (Qnat_pos total Hpos) as Ht.
  assert (Hnz : ~ (Qnat total == 0)%Q) by lra.
  unfold percentage. split.
  - intros H. apply Qnat_inj.
    assert (H1 : (Qnat points / Qnat total == 1)%Q) by lra.
    assert (H2 : (Qnat points == Qnat points / Qnat total * Qnat total)%Q)
      by (field; exact Hnz).
    rewrite H2, H1. ring.
  - intros ->. field. exact Hnz.
Qed.

Lemma percentage_none (points total : nat) :
  (0 < total)%nat ->
  ((percentage points total == 0)%Q <-> points = 0%nat).
Proof.
  intros Hpos. pose proof (Qnat_pos total Hpos) as Ht.
  assert (Hnz : ~ (Qnat total == 0)%Q) by lra.
  unfold percentage. split.
  - intros H. apply Qnat_inj.
    assert (H1 : (Qnat points / Qnat total == 0)%Q) by lra.
    assert (H2 : (Qnat points == Qnat points / Qnat total * Qnat total)%Q)
      by (field; exact Hnz).
    rewrite H2, H1. change (Qnat 0) with 0%Q. ring.
  - intros ->. change (Qnat 0) with 0%Q. field. exact Hnz.
Qed.

(** X12. The percentage shown is 100 exactly when every row lies above its
    budget, and 0 exactly when none does. *)
Theorem compliance_extremes (startDate endDate : option Timestamp)
        (file : list CombinedRow) (chart : Chart)
        (name : Timestamp * Timestamp) :
  plotter startDate endDate file = Plotted chart name ->
  ((percTotalPoints chart == 100)%Q <->
   pointsAboveBudget chart = totalPoints chart) /\
  ((percTotalPoints chart == 0)%Q <-> pointsAboveBudget chart = 0%nat).
Proof.
  intros Hrun. apply plotter_Plotted in Hrun. destruct Hrun as [Hne ->].
  simpl.
  assert (Hpos : (0 < List.length (fetchCsvData startDate endDate file))%nat)
    by (destruct (fetchCsvData startDate endDate file);
        [congruence | simpl; lia]).
  split; [now apply percentage_full | now apply percentage_none].
Qed.

Lemma compliance_extremes_witness :
  exists chart name,
    plotter (Some (jan 1)) (Some (jan 2)) sample_file = Plotted chart name /\
    pointsAboveBudget chart = totalPoints chart /\
    (percTotalPoints chart == 100)%Q.
Proof.
  do 2 eexists. split; [reflexivity|].
  split; [reflexivity|].
  destruct (compliance_extremes (Some (jan 1)) (Some (jan 2)) sample_file
                                _ _ eq_refl) as [[_ H] _].
  apply H. reflexivity.
Defined.

(** ** Averages *)

Lemma Qnat_S (n : nat) : (Qnat (S n) == Qnat n + 1)%Q.
Proof.
  unfold Qnat. rewrite Nat2Z.inj_succ. unfold Z.succ.
  rewrite inject_Z_plus. reflexivity.
Qed.

Lemma range_sum_bounds (vals : list Q) (a b : Q) (n lo : nat) :
  (forall j, (lo <= j < lo + n)%nat -> (a <= nth j vals 0 /\ nth j vals 0 <= b)%Q) ->
  (Qnat n * a <= range_sum vals lo n /\ range_sum vals lo n <= Qnat n * b)%Q.
Proof.
  revert lo. induction n as [|n IH]; intros lo H.
  - unfold range_sum. simpl. change (Qnat 0) with 0%Q. lra.
  - rewrite range_sum_cons, Qnat_S.
    destruct (H lo ltac:(lia)) as [H1 H2].
    destruct (IH (S lo)) as [H3 H4]; [intros j Hj; apply H; lia|].
    lra.
Qed.

Lemma mean_of_rows_bounds (vals : list Q) (a b : Q) (lo n : nat) :
  (0 < n)%nat -> (lo + n <= List.length vals)%nat ->
  (forall v, In v vals -> (a <= v /\ v <= b)%Q) ->
  (a <= mean_of_rows vals lo n /\ mean_of_rows vals lo n <= b)%Q.
Proof.
  intros Hn Hlen Hall.
  destruct (range_sum_bounds vals a b n lo) as [H1 H2].
  { intros j Hj. apply Hall, nth_In. lia. }
  pose proof (Qnat_pos n Hn) as Hpos.
  unfold mean_of_rows. split.
  - apply Qle_shift_div_l; [exact Hpos | lra].
  - apply Qle_shift_div_r; [exact Hpos | lra].
Qed.

(** X13. No average on the chart leaves the span of the data: if every PR
    of the selection lies between [a] and [b], so do every defined value of
    the 30-row rolling average, the five trailing averages and the lifetime
    average. *)
Theorem chart_averages_within (startDate endDate : option Timestamp)
        (file : list CombinedRow) (chart : Chart)
        (name : Timestamp * Timestamp) (a b : Q) :
  plotter startDate endDate file = Plotted chart name ->
  (forall r, In r (rows chart) -> (a <= PR r /\ PR r <= b)%Q) ->
  (forall i q, nth_error (PR_30avg chart) i = Some (Some q) ->
               (a <= q /\ q <= b)%Q) /\
  (forall avg q,
     In avg [avg_pr_7d chart; avg_pr_30d chart; avg_pr_60d chart;
             avg_pr_90d chart; avg_pr_365d chart; avg_pr_lifetime chart] ->
     avg = Some q -> (a <= q /\ q <= b)%Q).
Proof.
  intros Hrun Hrows.
  apply plotter_Plotted in Hrun. destruct Hrun as [Hne ->].
  cbn [rows PR_30avg avg_pr_7d avg_pr_30d avg_pr_60d avg_pr_90d
       avg_pr_365d avg_pr_lifetime] in *.
  set (pr := map PR (fetchCsvData startDate endDate file)) in *.
  assert (Hpr : forall v, In v pr -> (a <= v /\ v <= b)%Q).
  { intros v Hv. apply in_map_iff in Hv. destruct Hv as [r [<- Hr]].
    now apply Hrows. }
  assert (Hprne : pr <> []).
  { unfold pr. destruct (fetchCsvData startDate endDate file);
      [congruence | discriminate]. }
  assert (Hn : (0 < List.length pr)%nat)
    by (destruct pr; [congruence | simpl; lia]).
  split.
  - intros i q Hq.
    assert (Hi : (i < List.length pr)%nat).
    { rewrite <- (rolling_mean_length 30). apply nth_error_Some. congruence. }
    destruct (rolling_mean_spec 30 pr i ltac:(lia) Hi)
      as [[_ Hnone]|[Hge [q' [Hsome Hq']]]]; [congruence|].
    rewrite Hsome in Hq. inversion Hq; subst q'.
    rewrite Hq'. apply mean_of_rows_bounds; [lia | lia | exact Hpr].
  - intros avg q Hin Havg. cbn [In] in Hin.
    assert (Htail : forall k, (0 < k)%nat -> mean (tail k pr) = Some q ->
                              (a <= q /\ q <= b)%Q).
    { intros k Hk Hm. destruct (mean_tail k pr Hk Hprne) as [q' [Hq' Heq]].
      rewrite Hq' in Hm. inversion Hm; subst q'.
      rewrite Heq. apply mean_of_rows_bounds; [lia | lia | exact Hpr]. }
    destruct Hin as [<-|[<-|[<-|[<-|[<-|[<-|[]]]]]]];
      try (eapply Htail; [|exact Havg]; lia).
    destruct (mean_all pr Hprne) as [q' [Hq' Heq]].
    rewrite Hq' in Havg. inversion Havg; subst q'.
    rewrite Heq. apply mean_of_rows_bounds; [lia | lia | exact Hpr].
Qed.

Lemma chart_averages_within_witness :
  exists chart name q,
    plotter None None sample_month = Plotted chart name /\
    (forall r, In r (rows chart) -> (1 <= PR r /\ PR r <= 31)%Q) /\
    avg_pr_7d chart = Some q /\ (1 <= q /\ q <= 31)%Q.
Proof.
  do 3 eexists. split; [reflexivity|].
  assert (Hrows : forall r,
             In r (fetchCsvData None None sample_month) ->
             (1 <= PR r /\ PR r <= 31)%Q).
  { intros r Hr. unfold fetchCsvData in Hr. apply sort_values_In in Hr.
    unfold sample_month in Hr. apply in_map_iff in Hr.
    destruct Hr as [n [<- Hn]]. apply in_seq in Hn. simpl.
    unfold Qnat. change 1%Q with (inject_Z 1). change 31%Q with (inject_Z 31).
    rewrite <- !Zle_Qle. lia. }
  split; [exact Hrows|].
  split; [reflexivity|].
  destruct (chart_averages_within None None sample_month _ _ 1 31 eq_refl
                                  Hrows) as [_ H].
  apply (H _ _ (or_introl eq_refl) eq_refl).
Defined.

Lemma tail_all {A : Type} (k : nat) (l : list A) :
  (0 < k)%nat -> (List.length l <= k)%nat -> tail k l = l.
Proof.
  intros Hk Hlen. unfold tail.
  destruct (Nat.eqb_spec k 0) as [->|_]; [lia|].
  replace (List.length l - k)%nat with 0%nat by lia. reflexivity.
Qed.

(** X14. On a selection of at most seven rows the six averages printed on
    the chart are one and the same number. *)
Theorem short_series_averages (startDate endDate : option Timestamp)
        (file : list CombinedRow) (chart : Chart)
        (name : Timestamp * Timestamp) :
  plotter startDate endDate file = Plotted chart name ->
  (List.length (rows chart) <= 7)%nat ->
  avg_pr_7d chart = avg_pr_lifetime chart /\
  avg_pr_30d chart = avg_pr_lifetime chart /\
  avg_pr_60d chart = avg_pr_lifetime chart /\
  avg_pr_90d chart = avg_pr_lifetime chart /\
  avg_pr_365d chart = avg_pr_lifetime chart.
Proof.
  intros Hrun Hlen.
  apply plotter_Plotted in Hrun. destruct Hrun as [_ ->].
  cbn [rows avg_pr_7d avg_pr_30d avg_pr_60d avg_pr_90d avg_pr_365d
       avg_pr_lifetime] in *.
  assert (Hpr : (List.length (map PR (fetchCsvData startDate endDate file))
                 <= 7)%nat) by now rewrite length_map.
  rewrite !tail_all by lia. repeat split.
Qed.

Lemma short_series_averages_witness :
  exists chart name,
    plotter (Some (jan 1)) (Some (jan 3)) sample_file = Plotted chart name /\
    (List.length (rows chart) <= 7)%nat /\
    avg_pr_365d chart = avg_pr_lifetime chart.
Proof.
  do 2 eexists. split; [reflexivity|].
  assert (Hlen : (List.length
                    (fetchCsvData (Some (jan 1)) (Some (jan 3)) sample_file)
                  <= 7)%nat) by (vm_compute; lia).
  split; [exact Hlen|].
  destruct (short_series_averages (Some (jan 1)) (Some (jan 3)) sample_file
                                  _ _ eq_refl Hlen) as [_ [_ [_ [_ H]]]].
  exact H.
Defined.

(** X15. Once the selection has thirty rows, the last point of the rolling
    average and the printed "last 30-d" average are the same number; with
    fewer rows the rolling average has no point at all, while the printed
    average is still defined. *)
Theorem rolling_meets_trailing (startDate endDate : option Timestamp)
        (file : list CombinedRow) (chart : Chart)
        (name : Timestamp * Timestamp) :
  plotter startDate endDate file = Plotted chart name ->
  ((30 <= List.length (rows chart))%nat ->
   exists q1 q2, iloc_last (PR_30avg chart) = Some (Some q1) /\
                 avg_pr_30d chart = Some q2 /\ (q1 == q2)%Q) /\
  ((List.length (rows chart) < 30)%nat ->
   (forall i, (i < List.length (rows chart))%nat ->
              nth_error (PR_30avg chart) i = Some None) /\
   exists q, avg_pr_30d chart = Some q).
Proof.
  intros Hrun.
  apply plotter_Plotted in Hrun. destruct Hrun as [Hne ->].
  cbn [rows PR_30avg avg_pr_30d].
  set (pr := map PR (fetchCsvData startDate endDate file)).
  assert (Hlen : List.length pr
                 = List.length (fetchCsvData startDate endDate file))
    by apply length_map.
  assert (Hprne : pr <> []).
  { unfold pr. destruct (fetchCsvData startDate endDate file);
      [congruence | discriminate]. }
  rewrite <- Hlen.
  destruct (mean_tail 30 pr ltac:(lia) Hprne) as [q2 [Hq2 Heq2]].
  split.
  - intros Hn. unfold iloc_last. rewrite rolling_mean_length.
    destruct (rolling_mean_spec 30 pr (List.length pr - 1)
                                ltac:(lia) ltac:(lia))
      as [[Hlt _]|[_ [q1 [Hq1 Heq1]]]]; [lia|].
    exists q1, q2. split; [exact Hq1|]. split; [exact Hq2|].
    rewrite Heq1, Heq2.
    replace (Nat.min 30 (List.length pr)) with 30%nat by lia.
    replace (List.length pr - 1 + 1 - 30)%nat
      with (List.length pr - 30)%nat by lia.
    reflexivity.
  - intros Hn. split; [|eauto].
    intros i Hi.
    destruct (rolling_mean_spec 30 pr i ltac:(lia) Hi)
      as [[_ Hnone]|[Hge _]]; [exact Hnone | lia].
Qed.

Lemma rolling_meets_trailing_witness :
  exists chart name q1 q2,
    plotter None None sample_month = Plotted chart name /\
    (30 <= List.length (rows chart))%nat /\
    iloc_last (PR_30avg chart) = Some (Some q1) /\
    avg_pr_30d chart = Some q2 /\ (q1 == q2)%Q.
Proof.
  assert (Hlen : (30 <= List.length (fetchCsvData None None sample_month))%nat)
    by (vm_compute; lia).
  destruct (rolling_meets_trailing None None sample_month _ _ eq_refl)
    as [H _].
  destruct (H Hlen) as [q1 [q2 Hq]].
  do 2 eexists. exists q1, q2. split; [reflexivity|].
  split; [exact Hlen | exact Hq].
Defined.

(** ** Merger, with or without repeated dates *)

Lemma filter_length_perm {A : Type} (p : A -> bool) (l l' : list A) :
  Permutation l l' ->
  List.length (filter p l) = List.length (filter p l').
Proof.
  induction 1 as [|x l l' _ IH|x y l|l l' l'' _ IH1 _ IH2]; simpl.
  - reflexivity.
  - destruct (p x); simpl; now rewrite IH.
  - destruct (p x), (p y); reflexivity.
  - now rewrite IH1.
Qed.

Section JoinFacts.
Context {A B : Type}.
Implicit Types (l : list (Timestamp * A)) (r : list (Timestamp * B)).

Lemma pd_merge_multiplicity l r (d : Timestamp) :
  List.length (filter (fun row => date_eqb d (fst row)) (pd_merge l r))
  = (List.length (filter (fun row => date_eqb d (fst row)) l)
     * List.length (filter (fun row => date_eqb d (fst row)) r))%nat.
Proof.
  induction l as [|[d1 a] t IH].
  - reflexivity.
  - change (pd_merge ((d1, a) :: t) r)
      with (map (fun y => (d1, (a, snd y)))
                (filter (fun y => date_eqb d1 (fst y)) r) ++ pd_merge t r).
    rewrite filter_app, length_app, IH. simpl.
    destruct (date_eqb d d1) eqn:E.
    + apply date_eqb_eq in E. subst d1.
      rewrite filter_all, length_map; [simpl; lia|].
      intros row Hrow. apply in_map_iff in Hrow.
      destruct Hrow as [y [<- _]]. apply date_eqb_refl.
    + rewrite filter_none; [reflexivity|].
      intros row Hrow. apply in_map_iff in Hrow.
      destruct Hrow as [y [<- _]]. exact E.
Qed.

(** X16. The join pairs every GHI row with every PR row of the same date:
    a date held by m GHI rows and n PR rows gets m x n rows in the combined
    series, so repeated dates multiply instead of being merged. *)
Theorem combinedData_multiplicity l r (d : Timestamp) :
  List.length (filter (fun row => date_eqb d (fst row)) (combinedData l r))
  = (List.length (filter (fun row => date_eqb d (fst row)) l)
     * List.length (filter (fun row => date_eqb d (fst row)) r))%nat.
Proof.
  unfold combinedData.
  rewrite <- (filter_length_perm _ _ _ (sort_values_perm fst (pd_merge l r))).
  apply pd_merge_multiplicity.
Qed.

(** X17. Whatever the sources hold, a combined row carries the date and the
    value cells of a GHI row and of a PR row with that same date, every such
    pair is present, and the combined series is in date order. *)
Theorem combinedData_rows l r :
  (forall d a b, In (d, (a, b)) (combinedData l r) <->
                 In (d, a) l /\ In (d, b) r) /\
  StronglySorted date_le (map fst (combinedData l r)) /\
  (List.length (combinedData l r) <= List.length l * List.length r)%nat.
Proof.
  unfold combinedData. split; [|split].
  - intros d a b. rewrite sort_values_In. apply pd_merge_In.
  - apply StronglySorted_map, sort_values_sorted.
  - rewrite sort_values_length. unfold pd_merge.
    induction l as [|x t IH]; simpl; [lia|].
    rewrite length_app, length_map.
    pose proof (filter_length_le (fun y => date_eqb (fst x) (fst y)) r).
    lia.
Qed.
End JoinFacts.

(** ** Record loader: what is returned, and which exception *)

Section LoaderRuns.
Variable to_datetime : string -> option Timestamp.

Lemma convert_dates_length (cols : list string) (i : nat)
      (lines : list (list string)) (rows : Frame) :
  convert_dates to_datetime cols i lines = Ok rows ->
  List.length rows = List.length lines.
Proof.
  revert rows. induction lines as [|line rest IH]; simpl; intros rows H.
  - inversion H. reflexivity.
  - destruct (to_datetime (nth i line EmptyString)); [|discriminate H].
    destruct (convert_dates to_datetime cols i rest) as [rows'|];
      simpl in H; [|discriminate H].
    inversion H. simpl. f_equal. now apply IH.
Qed.

Lemma load_csv_length (file : File) (frame : Frame) :
  load_csv to_datetime file = Ok frame ->
  List.length frame = row_count [file].
Proof.
  unfold load_csv, read_csv, row_count. simpl.
  destruct (content file) as [t|]; simpl; [|discriminate].
  destruct (column_index "Date" (header t)); [|discriminate].
  intros H. apply convert_dates_length in H. lia.
Qed.

Lemma walk_loop_ok (todo : list File) (csvData : list Frame)
      (seen : list File) (frames : list Frame) :
  snd (walk_loop to_datetime todo csvData seen) = Ok frames ->
  exists new,
    frames = csvData ++ new /\
    Forall2 (fun file frame => load_csv to_datetime file = Ok frame)
            (filter is_csv todo) new.
Proof.
  revert csvData seen. induction todo as [|file rest IH];
    intros csvData seen H; simpl in *.
  - inversion H. exists []. split; [now rewrite app_nil_r | constructor].
  - destruct (is_csv file); [|now apply IH in H].
    destruct (load_csv to_datetime file) as [tempDf|err] eqn:L;
      [|discriminate H].
    apply IH in H. destruct H as [new [Hframes Hall]].
    exists (tempDf :: new). split.
    + rewrite Hframes, <- app_assoc. reflexivity.
    + constructor; assumption.
Qed.

Lemma row_count_app (a b : list File) :
  row_count (a ++ b) = (row_count a + row_count b)%nat.
Proof.
  unfold row_count. now rewrite map_app, list_sum_app.
Qed.

(** X18. When [csvWalker] returns, its frame is the frames of the [.csv]
    files glued together in the order of the walk, each file loaded whole:
    the frame has exactly as many rows as those files have data lines, and
    at least one [.csv] file was there. *)
Theorem csvWalker_returns (dir : Dir) (frame : Frame) :
  csvWalker to_datetime dir = Ok frame ->
  filter is_csv (os_walk dir) <> [] /\
  (exists frames,
     Forall2 (fun file tempDf => load_csv to_datetime file = Ok tempDf)
             (filter is_csv (os_walk dir)) frames /\
     frame = List.concat frames) /\
  List.length frame = row_count (filter is_csv (os_walk dir)).
Proof.
  unfold csvWalker, csvWalker_run. intros H.
  destruct (walk_loop to_datetime (os_walk dir) [] []) as [seen r] eqn:W.
  simpl in H. destruct r as [csvData|]; [|discriminate H].
  assert (Hsnd : snd (walk_loop to_datetime (os_walk dir) [] []) = Ok csvData)
    by now rewrite W.
  apply walk_loop_ok in Hsnd. destruct Hsnd as [new [Hnew Hall]].
  simpl in Hnew. subst new. simpl in H.
  assert (Hframe : frame = List.concat csvData /\ csvData <> []).
  { destruct csvData; [discriminate H|]. inversion H. split; [reflexivity|].
    discriminate. }
  destruct Hframe as [-> Hne]. clear H.
  split.
  { intros Hnil. rewrite Hnil in Hall. inversion Hall. congruence. }
  split; [exists csvData; split; [exact Hall | reflexivity]|].
  clear W Hne. induction Hall as [|file tempDf files rest Hload _ IH].
  - reflexivity.
  - change (file :: files) with ([file] ++ files).
    rewrite row_count_app. simpl List.concat. rewrite length_app, IH.
    now rewrite (load_csv_length file tempDf Hload).
Qed.

Lemma walk_loop_first_failure (good rest : list File) (bad : File) (e : Exn)
      (csvData : list Frame) (seen : list File) :
  (forall file, In file (good ++ [bad]) -> is_csv file = true) ->
  (forall file, In file good -> is_err (load_csv to_datetime file) = false) ->
  load_csv to_datetime bad = Err e ->
  walk_loop to_datetime (good ++ bad :: rest) csvData seen
  = (seen ++ good ++ [bad], Err e).
Proof.
  revert csvData seen. induction good as [|file good IH];
    intros csvData seen Hcsv Hgood Hbad; simpl.
  - rewrite (Hcsv bad) by (now left). now rewrite Hbad.
  - rewrite (Hcsv file) by (now left).
    pose proof (Hgood file (or_introl eq_refl)) as Hok.
    destruct (load_csv to_datetime file) as [tempDf|]; [|discriminate Hok].
    rewrite IH.
    + now rewrite <- app_assoc.
    + intros f Hf. apply Hcsv. now right.
    + intros f Hf. apply Hgood. now right.
    + exact Hbad.
Qed.

(** X19. The first [.csv] file of the walk that fails to load decides the
    run: its exception is the one raised, the files before it were read, and
    no file after it is touched. *)
Theorem csvWalker_first_failure (dir : Dir) (good rest : list File)
        (bad : File) (e : Exn) :
  filter is_csv (os_walk dir) = good ++ bad :: rest ->
  (forall file, In file good -> is_err (load_csv to_datetime file) = false) ->
  load_csv to_datetime bad = Err e ->
  csvWalker_run to_datetime dir = (good ++ [bad], Err e).
Proof.
  intros Hsplit Hgood Hbad. unfold csvWalker_run.
  rewrite walk_loop_filter, Hsplit.
  rewrite (walk_loop_first_failure good rest bad e [] []); auto.
  intros file Hin.
  assert (Hin' : In file (filter is_csv (os_walk dir))).
  { rewrite Hsplit. apply in_app_or in Hin. apply in_or_app.
    destruct Hin as [Hin|[<-|[]]]; [now left | right; now left]. }
  apply filter_In in Hin'. tauto.
Qed.

(** X20. [preprocessing] fails exactly when one of the two trees has a
    [.csv] file that does not load or has no [.csv] file, never in the merge
    or the sort; the GHI tree is walked first, so when it fails its exception
    is the one raised.  What it returns is in date order. *)
Theorem preprocessing_failure (ghiDir prDir : Dir) :
  is_err (preprocessing to_datetime ghiDir prDir)
  = (existsb (load_fails to_datetime) (filter is_csv (os_walk ghiDir))
     || (List.length (filter is_csv (os_walk ghiDir)) =? 0)%nat)
    || (existsb (load_fails to_datetime) (filter is_csv (os_walk prDir))
        || (List.length (filter is_csv (os_walk prDir)) =? 0)%nat) /\
  (forall e, csvWalker to_datetime ghiDir = Err e ->
             preprocessing to_datetime ghiDir prDir = Err e) /\
  (forall combined,
     preprocessing to_datetime ghiDir prDir = Ok combined ->
     StronglySorted date_le (map fst combined)).
Proof.
  rewrite <- !csvWalker_err. unfold preprocessing.
  destruct (csvWalker to_datetime ghiDir) as [g|eg];
    destruct (csvWalker to_datetime prDir) as [p|ep]; simpl;
    (split; [reflexivity|]); (split; [congruence|]);
    intros combined H; try discriminate H.
  inversion H. apply StronglySorted_map, sort_values_sorted.
Qed.
End LoaderRuns.

Lemma csvWalker_returns_witness :
  exists frame,
    csvWalker ymd ghi_dir = Ok frame /\
    List.length frame = row_count (filter is_csv (os_walk ghi_dir)).
Proof.
  eexists. split; [reflexivity|].
  destruct (csvWalker_returns ymd ghi_dir _ eq_refl) as [_ [_ H]].
  exact H.
Defined.

Lemma csvWalker_first_failure_witness :
  load_csv ymd (csv "b.csv" ["GHI"%string] [["2"%string]])
  = Err (KeyError "Date") /\
  map fname (fst (csvWalker_run ymd ghi_bad_dir)) = ["a.csv"; "b.csv"]%string /\
  snd (csvWalker_run ymd ghi_bad_dir) = Err (KeyError "Date").
Proof.
  assert (Hbad : load_csv ymd (csv "b.csv" ["GHI"%string] [["2"%string]])
                 = Err (KeyError "Date")) by reflexivity.
  split; [exact Hbad|].
  rewrite (csvWalker_first_failure
             ymd ghi_bad_dir
             [csv "a.csv" ["Date"; "GHI"]%string
                  [["2021-01-01"; "1"]%string]]
             [csv "c.csv" ["Date"%string] [["someday"%string]]]
             (csv "b.csv" ["GHI"%string] [["2"%string]])
             (KeyError "Date") eq_refl).
  - split; reflexivity.
  - intros file [<-|[]]. reflexivity.
  - exact Hbad.
Defined.

Lemma preprocessing_failure_witness :
  csvWalker ymd no_csv_dir = Err NoObjectsToConcatenate /\
  preprocessing ymd no_csv_dir pr_dir = Err NoObjectsToConcatenate.
Proof.
  split; [reflexivity|].
  destruct (preprocessing_failure ymd no_csv_dir pr_dir) as [_ [H _]].
  apply H. reflexivity.
Defined.

(** ** The test on file names *)

Lemma substring_all (s : string) : substring 0 (String.length s) s = s.
Proof.
  induction s as [|c s IH]; simpl; [reflexivity | now rewrite IH].
Qed.

Lemma substring_after (p q : string) :
  substring (String.length p) (String.length q) (p ++ q) = q.
Proof.
  induction p as [|c p IH]; simpl.
  - apply substring_all.
  - exact IH.
Qed.

Lemma string_length_append (p q : string) :
  String.length (p ++ q) = (String.length p + String.length q)%nat.
Proof.
  induction p as [|c p IH]; simpl; [reflexivity | now rewrite IH].
Qed.

Lemma string_split_at (s : string) (n : nat) :
  (n <= String.length s)%nat ->
  s = (substring 0 n s ++ substring n (String.length s - n) s)%string.
Proof.
  revert n. induction s as [|c s IH]; intros n Hn; simpl in Hn.
  - replace n with 0%nat by lia. reflexivity.
  - destruct n as [|n]; simpl.
    + now rewrite substring_all.
    + f_equal. apply IH. lia.
Qed.

(** X21. [endswith] holds exactly of the strings made of some text, possibly
    empty, followed by the suffix; so the loader takes a file exactly when
    its name is some text followed by [.csv] in lower case. *)
Theorem endswith_iff (s suffix : string) (file : File) :
  (endswith s suffix = true <-> exists stem, s = (stem ++ suffix)%string) /\
  (is_csv file = true <->
   exists stem, fname file = (stem ++ ".csv")%string).
Proof.
  assert (H : forall s suffix,
             endswith s suffix = true <->
             exists stem, s = (stem ++ suffix)%string).
  { clear. intros s suffix. unfold endswith. rewrite andb_true_iff. split.
    - intros [Hlen Heq]. apply Nat.leb_le in Hlen. apply String.eqb_eq in Heq.
      exists (substring 0 (String.length s - String.length suffix) s).
      pose proof (string_split_at
                    s (String.length s - String.length suffix) ltac:(lia))
        as Hs.
      replace (String.length s - (String.length s - String.length suffix))%nat
        with (String.length suffix) in Hs by lia.
      rewrite Heq in Hs. exact Hs.
    - intros [stem ->]. rewrite string_length_append. split.
      + apply Nat.leb_le. lia.
      + replace (String.length stem + String.length suffix
                 - String.length suffix)%nat
          with (String.length stem) by lia.
        rewrite substring_after. apply String.eqb_refl. }
  split; [apply H | apply H].
Qed.

Example is_csv_samples :
  is_csv (csv ".csv" [] []) = true /\ is_csv (csv "a.CSV" [] []) = false /\
  is_csv (csv "a.csv " [] []) = false /\ is_csv (csv "acsv" [] []) = false.
Proof. repeat split. Qed.

(** ** When [plotter] raises, and what it does not depend on *)




Lemma Permutation_filter_list {A : Type} (p : A -> bool) (l l' : list A) :
  Permutation l l' -> Permutation (filter p l) (filter p l').
Proof.
  induction 1 as [|x l l' _ IH|x y l|l l' l'' _ IH1 _ IH2]; simpl.
  - constructor.
  - destruct (p x); [now constructor | exact IH].
  - destruct (p x), (p y); try reflexivity. apply perm_swap.
  - now transitivity (filter p l').
Qed.

Lemma key_injective {A : Type} (key : A -> Timestamp) (l : list A) (x y : A) :
  NoDup (map key l) -> In x l -> In y l -> key x = key y -> x = y.
Proof.
  induction l as [|z t IH]; simpl; intros Hnd Hx Hy Hk; [contradiction|].
  inversion Hnd as [|? ? Hnot Hnd']; subst.
  destruct Hx as [->|Hx], Hy as [->|Hy].
  - reflexivity.
  - exfalso. apply Hnot. rewrite Hk. now apply in_map.
  - exfalso. apply Hnot. rewrite <- Hk. now apply in_map.
  - now apply IH.
Qed.

Lemma sorted_unique {A : Type} (key : A -> Timestamp) (l l' : list A) :
  StronglySorted (key_le key) l -> StronglySorted (key_le key) l' ->
  Permutation l l' -> NoDup (map key l) -> l = l'.
Proof.
  intros Hs. revert l'.
  induction Hs as [|x t Hs IH Hall]; intros l' Hs' Hperm Hnd.
  - apply Permutation_nil in Hperm. now subst.
  - destruct l' as [|y t'].
    { apply Permutation_sym, Permutation_nil in Hperm. discriminate. }
    apply StronglySorted_inv in Hs'. destruct Hs' as [Hs' Hall'].
    rewrite Forall_forall in Hall, Hall'.
    assert (Hxy : x = y).
    { assert (Hy : In y (x :: t))
        by (apply (Permutation_in _ (Permutation_sym Hperm)); now left).
      assert (Hx : In x (y :: t'))
        by (apply (Permutation_in _ Hperm); now left).
      apply (key_injective key (x :: t)); auto; [now left|].
      apply date_le_antisym.
      - destruct Hy as [<-|Hy]; [apply date_leb_refl | now apply Hall].
      - destruct Hx as [<-|Hx]; [apply date_leb_refl | now apply Hall']. }
    subst y. f_equal.
    apply IH; [exact Hs' | now apply Permutation_cons_inv in Hperm|].
    simpl in Hnd. now inversion Hnd.
Qed.

(** X23. With one row per date, the order of the lines of the file plays no
    part in the selection, and none in a run with both bounds: two files
    with the same rows give the same selection and the same outcome. *)
Theorem plotter_line_order (file file' : list CombinedRow)
        (startDate endDate : option Timestamp) (s e : Timestamp) :
  Permutation file file' -> NoDup (map Date file) ->
  fetchCsvData startDate endDate file = fetchCsvData startDate endDate file' /\
  plotter (Some s) (Some e) file = plotter (Some s) (Some e) file'.
Proof.
  intros Hperm Hnd.
  assert (Hsort : forall l l' : list CombinedRow,
             Permutation l l' -> NoDup (map Date l) ->
             sort_values Date l = sort_values Date l').
  { intros l l' Hp Hn.
    apply (sorted_unique Date); try apply sort_values_sorted.
    - rewrite <- (sort_values_perm Date l), <- (sort_values_perm Date l').
      exact Hp.
    - apply (Permutation_NoDup
               (Permutation_map Date (sort_values_perm Date l))). exact Hn. }
  assert (Hfilter : forall p : CombinedRow -> bool,
             sort_values Date (filter p file)
             = sort_values Date (filter p file')).
  { intros p. apply Hsort; [now apply Permutation_filter_list|].
    clear - Hnd. induction file as [|x t IH]; simpl; [constructor|].
    inversion Hnd as [|? ? Hnot Hnd']; subst.
    destruct (p x); simpl; [|now apply IH].
    constructor; [|now apply IH].
    intros Hin. apply Hnot. apply in_map_iff in Hin.
    destruct Hin as [r [Hr Hin]]. apply filter_In in Hin.
    apply in_map_iff. exists r. tauto. }
  assert (Hsel : forall sd ed,
             fetchCsvData sd ed file = fetchCsvData sd ed file').
  { intros [s0|] [e0|]; unfold fetchCsvData;
      try (now apply Hsort); apply Hfilter. }
  split; [apply Hsel|].
  unfold plotter, default_range. rewrite (Hsel (Some s) (Some e)).
  reflexivity.
Qed.

Lemma plotter_line_order_witness :
  Permutation sample_file (rev sample_file) /\
  NoDup (map Date sample_file) /\
  plotter (Some (jan 1)) (Some (jan 3)) sample_file
  = plotter (Some (jan 1)) (Some (jan 3)) (rev sample_file).
Proof.
  assert (Hp : Permutation sample_file (rev sample_file))
    by apply Permutation_rev.
  assert (Hn : NoDup (map Date sample_file)) by nodup_dates.
  split; [exact Hp|]. split; [exact Hn|].
  apply (plotter_line_order sample_file (rev sample_file) None None
                            (jan 1) (jan 3) Hp Hn).
Defined.
